(** * drug-order-inquiry: the telegram viewer and the telegram core

    The repository's React front end ([frontend/src/App.js]) is embedded
    in modules [Js] and [App]: JSON values as the browser receives them,
    the JavaScript operators the component uses (property access, optional
    chaining, [||], [===], [Array.prototype.filter] and [map]), and the
    component's state with its asynchronous handlers written as explicit
    state passing.  The sources hold three revisions of the component;
    the embedding follows the last one, the one with the search form
    (kept after the shell commands of [build_prod_images.sh], lines
    14-374).  Its detail view is, line for line, that of the second
    revision ([frontend/src/App.js], lines 245-493).

    The parsing core ([backend/parser.py], [backend/app.py]) is described
    by the specification only; module [Core] models it from that text,
    with the Schema Table as a parameter, and module [Format] says what a
    well-formed telegram looks like on the wire. *)

From Stdlib Require Import Setoid String Ascii List Bool Arith ZArith QArith Lia.
Import ListNotations.
Local Close Scope Q_scope.
Local Open Scope string_scope.
Local Open Scope list_scope.
Local Open Scope nat_scope.

(* ===================================================================== *)
(** * JavaScript values and operators                                     *)
(* ===================================================================== *)

Module Js.

(** A value the component can hold: [undefined], or anything
    [JSON.parse] produces.  An object lists its properties in insertion
    order; [JSON.parse] leaves one binding per key, and a lookup takes
    the first. *)
#[warnings="-register-all"]
Inductive value : Type :=
| VUndefined
| VNull
| VBool (b : bool)
| VNum (q : Q)
| VStr (s : string)
| VArr (elems : list value)
| VObj (props : list (string * value)).

(** Exceptions raised while a handler or a render runs. *)
Inductive exn : Type :=
| TypeError
| AxiosError.

Inductive result (A : Type) : Type :=
| Ok (a : A)
| Throw (e : exn).
Arguments Ok {A} a.
Arguments Throw {A} e.

Definition ret {A} (a : A) : result A := Ok a.

Definition bind {A B} (m : result A) (k : A -> result B) : result B :=
  match m with
  | Ok a => k a
  | Throw e => Throw e
  end.

Declare Scope js_scope.
Delimit Scope js_scope with js.
Notation "x <- m ;; k" := (bind m (fun x => k))
  (at level 61, m at next level, right associativity) : js_scope.
Local Open Scope js_scope.

(** [v == null]: the test behind [?.]. *)
Definition nullish (v : value) : bool :=
  match v with
  | VUndefined | VNull => true
  | _ => false
  end.

(** ToBoolean, as used by [||], [!] and the conditional operator. *)
Definition truthy (v : value) : bool :=
  match v with
  | VUndefined | VNull => false
  | VBool b => b
  | VNum q => negb (Qnum q =? 0)%Z
  | VStr s => negb (String.eqb s "")
  | VArr _ | VObj _ => true
  end.

(** [a || b]. *)
Definition or (a b : value) : value := if truthy a then a else b.

Fixpoint lookup (k : string) (props : list (string * value)) : option value :=
  match props with
  | [] => None
  | (k', v) :: rest => if String.eqb k' k then Some v else lookup k rest
  end.

(** [v.k] for the data keys the component reads ([raw_data], [content],
    [item_group], [item_info], [attribute], [name], [quantity],
    [unit_name], [code], [patient_info], [birthdate], [address],
    [order_info], [number], [version], [doctor_info], [d_id],
    [kanji_name], [hakkou_dept_code], [id], [patient_id], [patient_name],
    [order_number], [order_date], [created_at], [updated_at]).  None of
    them is a property of a primitive wrapper, of [Array.prototype] or of
    [Object.prototype], so only objects answer with something other than
    [undefined]; [null] and [undefined] throw. *)
Definition get (v : value) (k : string) : result value :=
  match v with
  | VUndefined | VNull => Throw TypeError
  | VObj props =>
      match lookup k props with
      | Some x => Ok x
      | None => Ok VUndefined
      end
  | _ => Ok VUndefined
  end.

(** [v?.k]: short-circuits to [undefined] on a nullish receiver and
    never throws. *)
Definition opt_get (v : value) (k : string) : value :=
  match v with
  | VObj props =>
      match lookup k props with
      | Some x => x
      | None => VUndefined
      end
  | _ => VUndefined
  end.

(** [v === 'lit']. *)
Definition strict_eq_str (v : value) (lit : string) : bool :=
  match v with
  | VStr s => String.eqb s lit
  | _ => false
  end.

(** [arr.filter(f)] with a callback that may throw: elements are visited
    left to right and the first exception aborts the call. *)
Fixpoint filter (f : value -> result bool) (l : list value)
  : result (list value) :=
  match l with
  | [] => Ok []
  | x :: rest =>
      keep <- f x ;;
      rest' <- filter f rest ;;
      ret (if keep then x :: rest' else rest')
  end.

(** [arr.map((item, index) => f(item, index))], indices from [i]. *)
Fixpoint map_from {B} (i : nat) (f : value -> nat -> result B)
  (l : list value) : result (list B) :=
  match l with
  | [] => Ok []
  | x :: rest =>
      y <- f x i ;;
      rest' <- map_from (S i) f rest ;;
      ret (y :: rest')
  end.

Definition map {B} (f : value -> nat -> result B) (l : list value)
  : result (list B) := map_from 0 f l.

End Js.

(* ===================================================================== *)
(** * The component [App]                                                 *)
(* ===================================================================== *)

Module App.
Import Js.
Local Open Scope js_scope.

(** ** Detail view: the prescription table

    [frontend/src/App.js], lines 400-412 (the same expression is at
    lines 282-294 of the last revision). *)

(** One [<tr key={index}>] of the prescription table with its four
    cells. *)
Record row : Type := mkRow {
  key : nat;
  name : value;
  quantity : value;
  unit_name : value;
  code : value
}.

(** What the [<tbody>] holds: the mapped rows, or the fallback
    [<tr><td colSpan="4">項目なし</td></tr>]. *)
Inductive tbody : Type :=
| Rows (rs : list row)
| NoItems.

Definition no_items_text : string := "項目なし".

(** [item => item.attribute === 'ID1'] *)
Definition is_prescription (item : value) : result bool :=
  a <- get item "attribute" ;;
  ret (strict_eq_str a "ID1").

(** [(item, index) => <tr key={index}>...</tr>] *)
Definition item_row (item : value) (index : nat) : result row :=
  n <- get item "name" ;;
  q <- get item "quantity" ;;
  u <- get item "unit_name" ;;
  c <- get item "code" ;;
  ret (mkRow index n q u c).

(** [selectedTelegram.raw_data?.content?.item_group?.item_info] *)
Definition item_info (selectedTelegram : value) : result value :=
  raw <- get selectedTelegram "raw_data" ;;
  ret (opt_get (opt_get (opt_get raw "content") "item_group") "item_info").

(** [item_info?.filter(item => item.attribute === 'ID1')]: [None] is the
    [undefined] of a short-circuited chain.  A receiver that is neither
    nullish nor an array has no callable [filter]. *)
Definition prescription_items (selectedTelegram : value)
  : result (option (list value)) :=
  info <- item_info selectedTelegram ;;
  match info with
  | VUndefined | VNull => ret None
  | VArr items =>
      kept <- filter is_prescription items ;;
      ret (Some kept)
  | _ => Throw TypeError
  end.

(** [...?.filter(...).map((item, index) => ...)]: the short circuit
    covers the whole chain. *)
Definition prescription_rows (selectedTelegram : value)
  : result (option (list row)) :=
  kept <- prescription_items selectedTelegram ;;
  match kept with
  | None => ret None
  | Some items =>
      rows <- map item_row items ;;
      ret (Some rows)
  end.

(** [chain || (<tr>...項目なし...</tr>)]: an array, even an empty one, is
    truthy; only [undefined] falls through to the right operand. *)
Definition prescription_tbody (selectedTelegram : value) : result tbody :=
  chain <- prescription_rows selectedTelegram ;;
  ret (match chain with
       | Some rows => Rows rows
       | None => NoItems
       end).

(** ** Detail view: the information grids

    [frontend/src/App.js], lines 320-324 ([formatDate]) and 416-483. *)

Definition dash : value := VStr "-".

(** [v?.k1?.k2...] *)
Definition opt_path (v : value) (ks : list string) : value :=
  fold_left opt_get ks v.

Section Rendering.

(** [new Date(dateStr).toLocaleString('ja-JP')] depends on the host's
    time zone and locale data; it is a parameter of the rendering. *)
Variable toLocaleString_jaJP : value -> string.

(** [JSON.stringify(v, null, 2)] *)
Variable stringify : value -> string.

Definition formatDate (dateStr : value) : value :=
  if negb (truthy dateStr) then VStr "-"
  else VStr (toLocaleString_jaJP dateStr).

Record detail : Type := mkDetail {
  d_items : tbody;
  d_patient_id : value;
  d_patient_name : value;
  d_birthdate : value;
  d_address : value;
  d_number : value;
  d_version : value;
  d_doctor_id : value;
  d_doctor_name : value;
  d_dept : value;
  d_created_at : value;
  d_updated_at : value;
  d_json : string
}.

(** The right-hand section: the prompt
    [左のリストから選択してください] while nothing is selected, the
    detail otherwise. *)
Inductive detail_section : Type :=
| SelectPrompt
| Detail (d : detail).

Definition render_detail (selectedTelegram : value) : result detail_section :=
  if negb (truthy selectedTelegram) then ret SelectPrompt
  else
    items <- prescription_tbody selectedTelegram ;;
    pid <- get selectedTelegram "patient_id" ;;
    pname <- get selectedTelegram "patient_name" ;;
    raw <- get selectedTelegram "raw_data" ;;
    created <- get selectedTelegram "created_at" ;;
    updated <- get selectedTelegram "updated_at" ;;
    ret (Detail {|
      d_items := items;
      d_patient_id := pid;
      d_patient_name := pname;
      d_birthdate :=
        or (opt_path raw ["content"; "patient_info"; "birthdate"]) dash;
      d_address :=
        or (opt_path raw ["content"; "patient_info"; "address"]) dash;
      d_number :=
        or (opt_path raw ["content"; "order_info"; "number"]) dash;
      d_version :=
        or (opt_path raw ["content"; "order_info"; "version"]) dash;
      d_doctor_id :=
        or (opt_path raw ["content"; "order_info"; "doctor_info"; "d_id"])
           dash;
      d_doctor_name :=
        or (opt_path raw
              ["content"; "order_info"; "doctor_info"; "kanji_name"]) dash;
      d_dept :=
        or (opt_path raw ["content"; "order_info"; "hakkou_dept_code"]) dash;
      d_created_at := formatDate created;
      d_updated_at := formatDate updated;
      d_json := stringify raw
    |}).

(** ** List view

    Last revision, lines 238-259. *)

(** One [<li key={t.id}>] of the telegram list (the [className] is left
    out). *)
Record list_item : Type := mkItem {
  li_key : value;
  li_patient_name : value;
  li_patient_id : value;
  li_order_number : value;
  li_version : value;
  li_order_date : value
}.

Definition render_item (t : value) : result list_item :=
  id <- get t "id" ;;
  pname <- get t "patient_name" ;;
  pid <- get t "patient_id" ;;
  num <- get t "order_number" ;;
  ver <- get t "version" ;;
  date <- get t "order_date" ;;
  ret {|
    li_key := id;
    li_patient_name := or pname (VStr "名称不明");
    li_patient_id := pid;
    li_order_number := num;
    li_version := ver;
    li_order_date := or date dash
  |}.

End Rendering.

(** ** State and handlers

    Last revision: [fetchTelegrams] at lines 37-45, [executeSearch] at
    lines 48-77, [handleSelectTelegram] at lines 144-156.  An [async]
    handler runs up to its [await], is suspended, and is resumed with the
    outcome of the request; each part is a function on the state. *)

(** The component's state hooks ([file] belongs to the upload form and
    is left out). *)
Record state : Type := mkState {
  telegrams : list value;
  selectedTelegram : value;
  loading : bool;
  error : option string;
  searchParams : string * string
}.

Definition setTelegrams (l : list value) (s : state) : state :=
  mkState l (selectedTelegram s) (loading s) (error s) (searchParams s).
Definition setSelectedTelegram (v : value) (s : state) : state :=
  mkState (telegrams s) v (loading s) (error s) (searchParams s).
Definition setLoading (b : bool) (s : state) : state :=
  mkState (telegrams s) (selectedTelegram s) b (error s) (searchParams s).
Definition setError (e : option string) (s : state) : state :=
  mkState (telegrams s) (selectedTelegram s) (loading s) e (searchParams s).

(** The requests the handlers send with [axios.get]. *)
Inductive request : Type :=
| GetTelegrams
| GetSearch (order_number version : string)
| GetDetail (id : value).

(** How an awaited request settles: with [res.data], or rejected.  The
    list and search endpoints answer with a JSON array, the detail
    endpoint with any JSON value. *)
Inductive response (A : Type) : Type :=
| Resolved (data : A)
| Rejected.
Arguments Resolved {A} data.
Arguments Rejected {A}.

(** [fetchTelegrams] from the settled [await] to its end. *)
Definition fetchTelegrams_settle (res : response (list value)) (s : state)
  : state :=
  match res with
  | Resolved data => setTelegrams data s
  | Rejected => setError (Some "データの取得に失敗しました。") s
  end.

(** [handleSelectTelegram(id)] up to its [await]. *)
Definition handleSelectTelegram_start (id : value) (s : state)
  : state * request :=
  (setError None (setLoading true s), GetDetail id).

(** [handleSelectTelegram] from the settled [await] to its end. *)
Definition handleSelectTelegram_settle (res : response value) (s : state)
  : state :=
  let s1 :=
    match res with
    | Resolved data => setSelectedTelegram data s
    | Rejected => setError (Some "詳細データの取得に失敗しました。") s
    end in
  setLoading false s1.

(** [executeSearch(number, version)] up to its [await]. *)
Definition executeSearch_start (number version : string) (s : state)
  : state * request :=
  (setError None (setLoading true s), GetSearch number version).

(** The [try] block of [executeSearch] after the [await]: the state
    reached, and either the request left pending by the un-awaited
    [handleSelectTelegram] call or the exception that leaves the block. *)
Definition executeSearch_try (res : response (list value)) (s : state)
  : state * result (option request) :=
  match res with
  | Rejected => (s, Throw AxiosError)
  | Resolved searchResults =>
      let s1 := setTelegrams searchResults s in
      match searchResults with
      | first :: _ =>
          match get first "id" with
          | Ok id =>
              let '(s2, req) := handleSelectTelegram_start id s1 in
              (s2, Ok (Some req))
          | Throw e => (s1, Throw e)
          end
      | [] => (setSelectedTelegram VNull s1, Ok None)
      end
  end.

(** [executeSearch] from the settled [await] to its end, with [catch]
    and [finally]. *)
Definition executeSearch_settle (res : response (list value)) (s : state)
  : state * result (option request) :=
  let '(s1, r) := executeSearch_try res s in
  match r with
  | Ok pending => (setLoading false s1, Ok pending)
  | Throw e =>
      (setLoading false (setError (Some "検索に失敗しました。") s1), Throw e)
  end.

(** A whole search: [executeSearch] runs to its end, then the detail
    request it left pending, if any, settles with [detail]. *)
Definition search_run (number version : string)
  (res : response (list value)) (detail : value -> response value)
  (s : state) : state :=
  let '(s0, _) := executeSearch_start number version s in
  let '(s1, r) := executeSearch_settle res s0 in
  match r with
  | Ok (Some (GetDetail id)) => handleSelectTelegram_settle (detail id) s1
  | _ => s1
  end.

(** ** Reading a telegram and its view *)

(** The attribute tag of item line [item] is the string [tag]. *)
Definition attribute_is (tag : string) (item : value) : Prop :=
  opt_get item "attribute" = VStr tag.

Definition has_attribute (tag : string) (item : value) : bool :=
  strict_eq_str (opt_get item "attribute") tag.

(** The four cells of a table row, and the four values of an item line
    they are to show. *)
Definition cells (r : row) : list value :=
  [name r; quantity r; unit_name r; code r].

Definition item_cells (item : value) : list value :=
  [opt_get item "name"; opt_get item "quantity";
   opt_get item "unit_name"; opt_get item "code"].

(** The optional fields the detail view shows: the path below
    [raw_data] and the cell that shows it. *)
Definition optional_cells (d : detail) : list (list string * value) :=
  [(["content"; "patient_info"; "birthdate"], d_birthdate d);
   (["content"; "patient_info"; "address"], d_address d);
   (["content"; "order_info"; "number"], d_number d);
   (["content"; "order_info"; "version"], d_version d);
   (["content"; "order_info"; "doctor_info"; "d_id"], d_doctor_id d);
   (["content"; "order_info"; "doctor_info"; "kanji_name"], d_doctor_name d);
   (["content"; "order_info"; "hakkou_dept_code"], d_dept d)].


End App.

(* ===================================================================== *)
(** * The telegram core                                                   *)
(* ===================================================================== *)

Module Core.

(** ** Data model *)

(** The raw octets of one telegram.  Field values are kept as the
    octets found; decoding them in a declared character encoding, and
    with it [EncodingError], is outside this model. *)
Definition stream : Type := list ascii.

(** Modelled from the spec: the segment kinds of section 2 (header,
    patient, order, doctor, item line, trailer); the parser that defines
    them is [backend/parser.py]. *)
Inductive segment_type : Type :=
| Header
| Patient
| Order
| Doctor
| ItemLine
| Trailer.

Definition segment_type_eqb (a b : segment_type) : bool :=
  match a, b with
  | Header, Header | Patient, Patient | Order, Order
  | Doctor, Doctor | ItemLine, ItemLine | Trailer, Trailer => true
  | _, _ => false
  end.

Definition all_segment_types : list segment_type :=
  [Header; Patient; Order; Doctor; ItemLine; Trailer].

(** Modelled from the spec: the value types of section 4.1. *)
Inductive value_type : Type :=
| DigitString
| FixedCode
| FreeText.

(** Modelled from the spec: "byte offset/width or delimiter rule"
    (section 4.1).  A field is either [n] octets wide or runs up to a
    delimiter octet, which is consumed and not part of the value. *)
Inductive field_rule : Type :=
| Width (n : nat)
| Until (delimiter : ascii).

Record field_spec : Type := mkField {
  field_name : string;
  rule_of : field_rule;
  type_of : value_type
}.

(** Modelled from the spec: the Schema Table of section 4.1, "pure
    lookup data, keyed by segment/record type code".  Every segment
    starts with its type code, [code_width] octets; the contents of the
    table are not given by the specification and stay a parameter of
    everything below. *)
Record schema_table : Type := mkSchema {
  code_width : nat;
  type_code : segment_type -> list ascii;
  layout : segment_type -> list field_spec
}.

Definition raw_field_map : Type := list (string * string).
Definition segment : Type := (segment_type * raw_field_map)%type.

(** Modelled from the spec: the rules of section 4.5, "each
    independently reported".  Presence, length and digit content of an
    identifier are separate rules (section 8 speaks of "the
    order-number-length rule"). *)
Inductive rule : Type :=
| OrderNumberPresent
| OrderNumberLength
| OrderNumberDigits
| VersionPresent
| VersionLength
| VersionDigits
| OrderInfoNumberAgrees
| OrderInfoVersionAgrees
| ItemAttributeNonEmpty.

(** Modelled from the spec: the error taxonomy of section 7. *)
Inductive parse_error : Type :=
| TruncatedInputError (ty : segment_type) (offset : nat)
| UnknownSegmentError (code : list ascii) (offset : nat)
| MissingSegmentError (ty : segment_type)
| ValidationError (violations : list rule)
| EncodingError.

Inductive result (A : Type) : Type :=
| Ok (a : A)
| Err (e : parse_error).
Arguments Ok {A} a.
Arguments Err {A} e.

Definition bind {A B} (m : result A) (k : A -> result B) : result B :=
  match m with
  | Ok a => k a
  | Err e => Err e
  end.

Declare Scope core_scope.
Delimit Scope core_scope with core.
Notation "x <- m ;; k" := (bind m (fun x => k))
  (at level 61, m at next level, right associativity) : core_scope.
Notation "' p <- m ;; k" := (bind m (fun x => let 'p := x in k))
  (at level 61, p pattern, m at next level, right associativity)
  : core_scope.
Local Open Scope core_scope.

(** Modelled from the spec: the nested record of section 3.  Every
    field that a segment may lack is an option. *)
Record patient_info : Type := mkPatient {
  birthdate : option string;
  address : option string
}.

Record doctor_info : Type := mkDoctor {
  id : option string;
  kanji_name : option string
}.

Record order_info : Type := mkOrder {
  number : option string;
  version : option string;
  doctor : doctor_info;
  hakkou_dept_code : option string
}.

Record item_line : Type := mkItemLine {
  attribute : option string;
  name : option string;
  quantity : option string;
  unit_name : option string;
  code : option string
}.

Record content : Type := mkContent {
  patient : patient_info;
  order : order_info;
  item_info : list item_line;
  overflow : list (segment_type * raw_field_map)
}.

(** The record the Validator sees: the natural key at the top level and
    the nested content. *)
Record parsed_record : Type := mkRecord {
  order_number : option string;
  record_version : option string;
  raw_data : content
}.

(** ** Segmenter (section 4.2) *)

Fixpoint bytes_eqb (a b : list ascii) : bool :=
  match a, b with
  | [], [] => true
  | x :: a', y :: b' => Ascii.eqb x y && bytes_eqb a' b'
  | _, _ => false
  end.

(** The table lookup by type code. *)
Definition recognise (sch : schema_table) (c : list ascii)
  : option segment_type :=
  find (fun ty => bytes_eqb c (type_code sch ty)) all_segment_types.

(** The next [n] octets, or [None] when the stream ends first. *)
Definition take (n : nat) (s : stream) : option (list ascii * stream) :=
  if n <=? List.length s then Some (firstn n s, skipn n s) else None.

(** The octets up to the delimiter [d], or [None] when the stream ends
    before one is met. *)
Fixpoint split_at (d : ascii) (s : stream) : option (list ascii * stream) :=
  match s with
  | [] => None
  | c :: rest =>
      if Ascii.eqb c d then Some ([], rest)
      else match split_at d rest with
           | Some (v, rest') => Some (c :: v, rest')
           | None => None
           end
  end.

Definition read_field (r : field_rule) (s : stream)
  : option (list ascii * stream) :=
  match r with
  | Width n => take n s
  | Until d => split_at d s
  end.

Fixpoint read_fields (fs : list field_spec) (s : stream)
  : option (raw_field_map * stream) :=
  match fs with
  | [] => Some ([], s)
  | f :: fs' =>
      match read_field (rule_of f) s with
      | None => None
      | Some (v, s1) =>
          match read_fields fs' s1 with
          | None => None
          | Some (m, s2) =>
              Some ((field_name f, string_of_list_ascii v) :: m, s2)
          end
      end
  end.

(** Modelled from the spec: reading the segment of type [ty] expected at
    offset [off].  "Stream ends before a required segment is fully read
    -> TruncatedInputError with the segment type and byte offset.
    Unrecognized segment/type code at a position where one is expected
    -> UnknownSegmentError with the offending code and offset." *)
Definition read_segment (sch : schema_table) (ty : segment_type)
  (s : stream) (off : nat) : result (segment * stream * nat) :=
  match take (code_width sch) s with
  | None => Err (TruncatedInputError ty off)
  | Some (c, s1) =>
      match recognise sch c with
      | Some ty' =>
          if segment_type_eqb ty' ty then
            match read_fields (layout sch ty) s1 with
            | None => Err (TruncatedInputError ty off)
            | Some (m, rest) =>
                Ok ((ty, m), rest, off + (List.length s - List.length rest))
            end
          else Err (UnknownSegmentError c off)
      | None => Err (UnknownSegmentError c off)
      end
  end.

(** Modelled from the spec: the repeating group.  "Continues consuming
    segments of the same type until a terminator or a differing type
    code is encountered, preserving emission order."  The group also
    ends where fewer than [code_width] octets are left; the segment
    expected next then reports the truncation.  [fuel] bounds the number
    of item lines by the number of octets left. *)
Fixpoint read_items (sch : schema_table) (fuel : nat) (s : stream)
  (off : nat) : result (list segment * stream * nat) :=
  match fuel with
  | 0 => Ok ([], s, off)
  | S fuel' =>
      match take (code_width sch) s with
      | None => Ok ([], s, off)
      | Some (c, _) =>
          match recognise sch c with
          | Some ItemLine =>
              '(seg, s1, off1) <- read_segment sch ItemLine s off ;;
              '(segs, s2, off2) <- read_items sch fuel' s1 off1 ;;
              Ok (seg :: segs, s2, off2)
          | _ => Ok ([], s, off)
          end
      end
  end.

(** Modelled from the spec: the Segmenter, a single pass over header,
    patient, order, doctor, the item lines and the trailer. *)
Definition segmenter (sch : schema_table) (s : stream)
  : result (list segment) :=
  '(h, s1, o1) <- read_segment sch Header s 0 ;;
  '(p, s2, o2) <- read_segment sch Patient s1 o1 ;;
  '(o, s3, o3) <- read_segment sch Order s2 o2 ;;
  '(d, s4, o4) <- read_segment sch Doctor s3 o3 ;;
  '(items, s5, o5) <- read_items sch (List.length s4) s4 o4 ;;
  '(t, _, _) <- read_segment sch Trailer s5 o5 ;;
  Ok ([h; p; o; d] ++ items ++ [t]).

(** ** Field Mapper (section 4.3) *)

(** Modelled from the spec: the semantic keys of each segment type, as
    section 3 names them. *)
Definition semantic_keys (ty : segment_type) : list string :=
  match ty with
  | Patient => ["birthdate"; "address"]
  | Order => ["number"; "version"; "hakkou_dept_code"]
  | Doctor => ["id"; "kanji_name"]
  | ItemLine => ["attribute"; "name"; "quantity"; "unit_name"; "code"]
  | Header | Trailer => []
  end.

Definition known (ty : segment_type) (k : string) : bool :=
  existsb (String.eqb k) (semantic_keys ty).

Record mapped_segment : Type := mkMapped {
  m_type : segment_type;
  m_fields : raw_field_map;
  m_overflow : raw_field_map
}.

(** Modelled from the spec: a pure transformation; "unknown field keys
    within a known segment type are preserved verbatim under a
    raw/overflow bucket".  The checks on digit strings are deferred to
    the Validator, as section 4.3 allows. *)
Definition field_mapper (seg : segment) : mapped_segment :=
  let '(ty, raw) := seg in
  mkMapped ty
    (List.filter (fun kv => known ty (fst kv)) raw)
    (List.filter (fun kv => negb (known ty (fst kv))) raw).

Fixpoint field (k : string) (m : raw_field_map) : option string :=
  match m with
  | [] => None
  | (k', v) :: rest => if String.eqb k' k then Some v else field k rest
  end.

(** ** Record Builder (section 4.4) *)

Definition to_item (m : raw_field_map) : item_line :=
  mkItemLine (field "attribute" m) (field "name" m) (field "quantity" m)
    (field "unit_name" m) (field "code" m).

Record builder : Type := mkBuilder {
  b_patient : option patient_info;
  b_order : option (option string * option string * option string);
  b_doctor : option doctor_info;
  b_items : list item_line;
  b_overflow : list (segment_type * raw_field_map)
}.

Definition empty_builder : builder := mkBuilder None None None [] [].

Definition keep_overflow (m : mapped_segment)
  (acc : list (segment_type * raw_field_map))
  : list (segment_type * raw_field_map) :=
  match m_overflow m with
  | [] => acc
  | extra => acc ++ [(m_type m, extra)]
  end.

(** Modelled from the spec: "singleton segments (patient, order, doctor)
    populate their corresponding nested object; each occurrence of an
    item-line segment appends to item_group.item_info in arrival order;
    the attribute tag on each item line is copied through unchanged". *)
Definition add_segment (b : builder) (m : mapped_segment) : builder :=
  let f := m_fields m in
  let ov := keep_overflow m (b_overflow b) in
  match m_type m with
  | Patient =>
      mkBuilder (Some (mkPatient (field "birthdate" f) (field "address" f)))
        (b_order b) (b_doctor b) (b_items b) ov
  | Order =>
      mkBuilder (b_patient b)
        (Some (field "number" f, field "version" f,
               field "hakkou_dept_code" f))
        (b_doctor b) (b_items b) ov
  | Doctor =>
      mkBuilder (b_patient b) (b_order b)
        (Some (mkDoctor (field "id" f) (field "kanji_name" f)))
        (b_items b) ov
  | ItemLine =>
      mkBuilder (b_patient b) (b_order b) (b_doctor b)
        (b_items b ++ [to_item f]) ov
  | Header | Trailer =>
      mkBuilder (b_patient b) (b_order b) (b_doctor b) (b_items b) ov
  end.

(** Modelled from the spec: the Record Builder; "a required singleton
    segment type missing entirely -> MissingSegmentError naming the
    segment type".  The order segment's number and version are the
    telegram's natural key and are also put at the top level. *)
Definition record_builder (ms : list mapped_segment) : result parsed_record :=
  let b := fold_left add_segment ms empty_builder in
  match b_patient b with
  | None => Err (MissingSegmentError Patient)
  | Some p =>
      match b_order b with
      | None => Err (MissingSegmentError Order)
      | Some (n, v, dept) =>
          match b_doctor b with
          | None => Err (MissingSegmentError Doctor)
          | Some d =>
              Ok (mkRecord n v
                    (mkContent p (mkOrder n v d dept) (b_items b)
                       (b_overflow b)))
          end
      end
  end.

(** ** Validator (section 4.5) *)

(** [0-9] *)
Definition is_digit (c : ascii) : bool :=
  (48 <=? nat_of_ascii c) && (nat_of_ascii c <=? 57).

Definition all_digits (s : string) : bool :=
  forallb is_digit (list_ascii_of_string s).

(** One identifier: present, [n] characters, all digits. *)
Definition check_identifier (missing bad_length bad_digits : rule)
  (n : nat) (v : option string) : list rule :=
  match v with
  | None => [missing]
  | Some s =>
      (if String.length s =? n then [] else [bad_length])
      ++ (if all_digits s then [] else [bad_digits])
  end.

Definition option_string_eqb (a b : option string) : bool :=
  match a, b with
  | Some x, Some y => String.eqb x y
  | None, None => true
  | _, _ => false
  end.

Definition has_attribute (it : item_line) : bool :=
  match attribute it with
  | Some a => negb (String.eqb a "")
  | None => false
  end.

(** Modelled from the spec: the four checks of section 4.5, every one
    evaluated, in the order the section lists them.  None of them reads
    the originating segment sequence, so the record is the only
    argument. *)
Definition violations (r : parsed_record) : list rule :=
  check_identifier OrderNumberPresent OrderNumberLength OrderNumberDigits 8
    (order_number r)
  ++ check_identifier VersionPresent VersionLength VersionDigits 2
       (record_version r)
  ++ (if option_string_eqb (number (order (raw_data r))) (order_number r)
      then [] else [OrderInfoNumberAgrees])
  ++ (if option_string_eqb (version (order (raw_data r))) (record_version r)
      then [] else [OrderInfoVersionAgrees])
  ++ (if forallb has_attribute (item_info (raw_data r))
      then [] else [ItemAttributeNonEmpty]).

(** Modelled from the spec: "either the validated record unchanged, or a
    ValidationError carrying the list of every violated rule". *)
Definition validator (r : parsed_record) : result parsed_record :=
  match violations r with
  | [] => Ok r
  | vs => Err (ValidationError vs)
  end.

(** ** The parser *)

(** Segmenter, Field Mapper and Record Builder, before validation. *)
Definition assemble (sch : schema_table) (s : stream) : result parsed_record :=
  segs <- segmenter sch s ;;
  record_builder (List.map field_mapper segs).

(** Modelled from the spec: the data flow of section 2, "raw stream ->
    Segmenter -> Field Mapper -> Record Builder -> Validator". *)
Definition parse (sch : schema_table) (s : stream) : result parsed_record :=
  r <- assemble sch s ;;
  validator r.

(** ** The ingest boundary (sections 3, 6 and 7) *)

(** Modelled from the spec: the persisted unit of section 3; [id] and
    the timestamps belong to the persistence collaborator.  The summary
    fields for list views are left out. *)
Record telegram : Type := mkTelegram {
  telegram_id : nat;
  t_order_number : option string;
  t_version : option string;
  t_raw_data : content;
  created_at : nat;
  updated_at : nat
}.

Record store : Type := mkStore {
  rows : list telegram;
  next_id : nat;
  clock : nat
}.

Definition persist (db : store) (r : parsed_record) : store * telegram :=
  let t := mkTelegram (next_id db) (order_number r) (record_version r)
             (raw_data r) (clock db) (clock db) in
  (mkStore (rows db ++ [t]) (S (next_id db)) (clock db), t).

(** Modelled from the spec: Ingest "returns the parsed-and-validated
    record, or a classified parse failure"; "a failure aborts only that
    attempt ... no partial record is ever persisted". *)
Definition ingest (sch : schema_table) (db : store) (s : stream)
  : store * result telegram :=
  match parse sch s with
  | Ok r => let '(db', t) := persist db r in (db', Ok t)
  | Err e => (db, Err e)
  end.

End Core.

(* ===================================================================== *)
(** * Well-formed telegrams on the wire                                   *)
(* ===================================================================== *)

(** What the statements about the parser quantify over: the octets of a
    telegram laid out by a Schema Table, and the properties of a table
    and of a message that make the layout unambiguous. *)
Module Format.
Import Core.

(** The values of one segment, field by field. *)
Definition values : Type := list (list ascii).

Record message : Type := mkMessage {
  header_values : values;
  patient_values : values;
  order_values : values;
  doctor_values : values;
  item_values : list values;
  trailer_values : values
}.

Definition encode_field (r : field_rule) (v : list ascii) : list ascii :=
  match r with
  | Width _ => v
  | Until d => v ++ [d]
  end.

Fixpoint encode_fields (fs : list field_spec) (vs : values) : list ascii :=
  match fs, vs with
  | f :: fs', v :: vs' => encode_field (rule_of f) v ++ encode_fields fs' vs'
  | _, _ => []
  end.

Definition encode_segment (sch : schema_table) (ty : segment_type)
  (vs : values) : list ascii :=
  type_code sch ty ++ encode_fields (layout sch ty) vs.

Definition encode_items (sch : schema_table) (items : list values)
  : list ascii :=
  concat (List.map (encode_segment sch ItemLine) items).

(** The octets of a telegram, its segments in source order. *)
Definition wire (sch : schema_table) (m : message) : stream :=
  encode_segment sch Header (header_values m)
  ++ encode_segment sch Patient (patient_values m)
  ++ encode_segment sch Order (order_values m)
  ++ encode_segment sch Doctor (doctor_values m)
  ++ encode_items sch (item_values m)
  ++ encode_segment sch Trailer (trailer_values m).

(** A value fits its field: the declared width, or free of the
    delimiter. *)
Definition fits (r : field_rule) (v : list ascii) : Prop :=
  match r with
  | Width n => List.length v = n
  | Until d => ~ In d v
  end.

Definition values_fit (sch : schema_table) (ty : segment_type)
  (vs : values) : Prop :=
  Forall2 (fun f v => fits (rule_of f) v) (layout sch ty) vs.

Definition message_fits (sch : schema_table) (m : message) : Prop :=
  values_fit sch Header (header_values m)
  /\ values_fit sch Patient (patient_values m)
  /\ values_fit sch Order (order_values m)
  /\ values_fit sch Doctor (doctor_values m)
  /\ Forall (values_fit sch ItemLine) (item_values m)
  /\ values_fit sch Trailer (trailer_values m).

(** Type codes have the table's width and identify their segment
    type. *)
Definition schema_ok (sch : schema_table) : Prop :=
  forall ty,
    List.length (type_code sch ty) = code_width sch
    /\ recognise sch (type_code sch ty) = Some ty.

(** The raw field map the Segmenter is to emit for a segment with these
    values. *)
Definition fields_of (sch : schema_table) (ty : segment_type) (vs : values)
  : raw_field_map :=
  combine (List.map field_name (layout sch ty))
          (List.map string_of_list_ascii vs).

(** The segments of a message, in source order. *)
Definition segments_of (sch : schema_table) (m : message) : list segment :=
  [(Header, fields_of sch Header (header_values m));
   (Patient, fields_of sch Patient (patient_values m));
   (Order, fields_of sch Order (order_values m));
   (Doctor, fields_of sch Doctor (doctor_values m))]
  ++ List.map (fun vs => (ItemLine, fields_of sch ItemLine vs)) (item_values m)
  ++ [(Trailer, fields_of sch Trailer (trailer_values m))].

Definition is_item_line (m : mapped_segment) : bool :=
  segment_type_eqb (m_type m) ItemLine.

Definition is_item_segment (seg : segment) : bool :=
  segment_type_eqb (fst seg) ItemLine.

(** The item line the parsed record is to hold for a source item
    line. *)
Definition item_of (sch : schema_table) (vs : values) : item_line :=
  to_item (m_fields (field_mapper (ItemLine, fields_of sch ItemLine vs))).

(** The record a message is to be assembled into: every field is the
    value the message has for it, or [None] where the layout has no such
    field; [extra] is the overflow bucket. *)
Definition expected_record (sch : schema_table) (m : message)
  (extra : list (segment_type * raw_field_map)) : parsed_record :=
  let pf := fields_of sch Patient (patient_values m) in
  let ofs := fields_of sch Order (order_values m) in
  let df := fields_of sch Doctor (doctor_values m) in
  mkRecord (field "number" ofs) (field "version" ofs)
    (mkContent
       (mkPatient (field "birthdate" pf) (field "address" pf))
       (mkOrder (field "number" ofs) (field "version" ofs)
          (mkDoctor (field "id" df) (field "kanji_name" df))
          (field "hakkou_dept_code" ofs))
       (List.map (item_of sch) (item_values m))
       extra).




(** [^[0-9]{n}$] *)
Definition digits_of_length (n : nat) (s : string) : Prop :=
  String.length s = n
  /\ forall c, In c (list_ascii_of_string s) ->
       48 <= nat_of_ascii c <= 57.

(** Section 4.5 read as a relation: rule [ru] is violated by [r]. *)
Definition violated (ru : rule) (r : parsed_record) : Prop :=
  let not_digit c := ~ (48 <= nat_of_ascii c <= 57) in
  match ru with
  | OrderNumberPresent => order_number r = None
  | OrderNumberLength =>
      exists s, order_number r = Some s /\ String.length s <> 8
  | OrderNumberDigits =>
      exists s c, order_number r = Some s
        /\ In c (list_ascii_of_string s) /\ not_digit c
  | VersionPresent => record_version r = None
  | VersionLength =>
      exists s, record_version r = Some s /\ String.length s <> 2
  | VersionDigits =>
      exists s c, record_version r = Some s
        /\ In c (list_ascii_of_string s) /\ not_digit c
  | OrderInfoNumberAgrees =>
      number (order (raw_data r)) <> order_number r
  | OrderInfoVersionAgrees =>
      version (order (raw_data r)) <> record_version r
  | ItemAttributeNonEmpty =>
      exists it, In it (item_info (raw_data r))
        /\ (attribute it = None \/ attribute it = Some "")
  end.

End Format.

(* ===================================================================== *)
(** * Sample data                                                         *)
(* ===================================================================== *)

(** A small table and telegrams for the examples.  The production table
    is not part of the sources. *)
Module Sample.
Import Core Format.

Definition bytes (s : string) : list ascii := list_ascii_of_string s.

Definition schema : schema_table :=
  mkSchema 2
    (fun ty =>
       bytes match ty with
             | Header => "HD" | Patient => "PT" | Order => "OR"
             | Doctor => "DR" | ItemLine => "IT" | Trailer => "TR"
             end)
    (fun ty =>
       match ty with
       | Header => [mkField "format" (Width 2) FixedCode]
       | Patient => [mkField "birthdate" (Width 8) DigitString;
                     mkField "address" (Until "|") FreeText]
       | Order => [mkField "number" (Until "|") DigitString;
                   mkField "version" (Until "|") DigitString;
                   mkField "hakkou_dept_code" (Width 3) FixedCode]
       | Doctor => [mkField "id" (Width 4) FixedCode;
                    mkField "kanji_name" (Until "|") FreeText]
       | ItemLine => [mkField "attribute" (Width 3) FixedCode;
                      mkField "name" (Until "|") FreeText;
                      mkField "quantity" (Until "|") DigitString;
                      mkField "unit_name" (Until "|") FreeText;
                      mkField "code" (Width 5) FixedCode]
       | Trailer => []
       end).

Definition item (attr name : string) : values :=
  [bytes attr; bytes name; bytes "1"; bytes "錠"; bytes "00001"].

(** The example of section 8, with two more item lines. *)
Definition telegram (number : string) : message :=
  mkMessage [bytes "01"] [bytes "19700101"; bytes "Kyoto"]
    [bytes number; bytes "01"; bytes "D01"]
    [bytes "0042"; bytes "Dr"]
    [item "ID1" "薬剤A"; item "ZZ9" "comment"; item "ID1" "薬剤B"]
    [].

(** An item line as the detail endpoint returns it. *)
Definition json_item (attr name : string) : Js.value :=
  Js.VObj [("attribute", Js.VStr attr); ("name", Js.VStr name);
           ("quantity", Js.VStr "1"); ("unit_name", Js.VStr "錠");
           ("code", Js.VStr "00001")].

(** A stored telegram as the detail endpoint returns it, with the given
    [item_info] and no [patient_info]. *)
Definition json_telegram (item_info : Js.value) : Js.value :=
  Js.VObj
    [("id", Js.VNum (inject_Z 7));
     ("patient_id", Js.VStr "P001");
     ("patient_name", Js.VStr "Yamada");
     ("order_number", Js.VStr "12345678");
     ("version", Js.VStr "01");
     ("order_date", Js.VNull);
     ("raw_data",
      Js.VObj
        [("content",
          Js.VObj
            [("order_info",
              Js.VObj [("number", Js.VStr "12345678");
                       ("version", Js.VStr "01")]);
             ("item_group", Js.VObj [("item_info", item_info)])])]);
     ("created_at", Js.VStr "2025-01-01T00:00:00")].

Definition json_items : list Js.value :=
  [json_item "ID1" "薬剤A"; json_item "ZZ9" "comment"; json_item "ID1" "薬剤B"].

Definition initial_state : App.state :=
  App.mkState [] (json_telegram Js.VNull) false None ("", "").

End Sample.


(* ===================================================================== *)
(** * The first revision of the prescription table                        *)
(* ===================================================================== *)

(** [frontend/src/App.js], lines 156-167: the table before the attribute
    filter was introduced.  The lines are read from
    [content.item_info.item_group] and every one is mapped to a row. *)
Module Rev1.
Import Js App.
Local Open Scope js_scope.

(** [(item, index) => <tr key={index}>...</tr>] with the cells
    [item.name], [item.suuryou], [item.sentaku_tani_name], [item.code]. *)
Definition item_row (item : value) (index : nat) : result row :=
  n <- get item "name" ;;
  q <- get item "suuryou" ;;
  u <- get item "sentaku_tani_name" ;;
  c <- get item "code" ;;
  ret (mkRow index n q u c).

(** [selectedTelegram.raw_data?.content?.item_info?.item_group] *)
Definition item_group (selectedTelegram : value) : result value :=
  raw <- get selectedTelegram "raw_data" ;;
  ret (opt_get (opt_get (opt_get raw "content") "item_info") "item_group").

(** [item_group?.map((item, index) => ...)]; a receiver that is neither
    nullish nor an array has no callable [map]. *)
Definition prescription_rows (selectedTelegram : value)
  : result (option (list row)) :=
  group <- item_group selectedTelegram ;;
  match group with
  | VUndefined | VNull => ret None
  | VArr items =>
      rows <- map item_row items ;;
      ret (Some rows)
  | _ => Throw TypeError
  end.

(** [chain || (<tr><td colSpan="4">項目なし</td></tr>)] *)
Definition prescription_tbody (selectedTelegram : value) : result tbody :=
  chain <- prescription_rows selectedTelegram ;;
  ret (match chain with
       | Some rows => Rows rows
       | None => NoItems
       end).

(** The four values of an item line the row is to show. *)
Definition item_cells (item : value) : list value :=
  [opt_get item "name"; opt_get item "suuryou";
   opt_get item "sentaku_tani_name"; opt_get item "code"].

End Rev1.

(* ===================================================================== *)
(** * The forms, the list and the events of the component                 *)
(* ===================================================================== *)

(** The rest of the last revision: the search form (lines 79-108 and
    174-216), the upload form (lines 110-141 and 218-232), the list
    (lines 234-260), and the component as a machine that takes one event
    at a time. *)
Module Ui.
Import Js App.
Local Open Scope js_scope.

(** [/^\d*$/.test(val)]: every character is one of [0-9].  A string is
    held as its UTF-8 octets; a character outside ASCII has no octet in
    [0-9], and for a string of digits the number of octets is
    [val.length]. *)
Definition is_ascii_digit (c : ascii) : bool :=
  (48 <=? nat_of_ascii c) && (nat_of_ascii c <=? 57).

Definition digits_only (val : string) : bool :=
  forallb is_ascii_digit (list_ascii_of_string val).

(** [a === b] on what [JSON.parse] gives.  Two objects or arrays that
    are compared here come out of two responses, hence are never the
    same reference. *)
Definition strict_eq (a b : value) : bool :=
  match a, b with
  | VUndefined, VUndefined => true
  | VNull, VNull => true
  | VBool x, VBool y => Bool.eqb x y
  | VNum x, VNum y => Qeq_bool x y
  | VStr x, VStr y => String.eqb x y
  | _, _ => false
  end.

Definition setSearchParams (p : string * string) (s : state) : state :=
  mkState (telegrams s) (selectedTelegram s) (loading s) (error s) p.

(** The two inputs a ref points to. *)
Inductive search_input : Type :=
| NumberInput
| VersionInput.

(** Whether [numberInputRef.current] and [versionInputRef.current] hold
    their input element. *)
Record refs : Type := mkRefs {
  numberInputRef : bool;
  versionInputRef : bool
}.

Section Component.

(** The [File] objects of the file input; the component only tests one
    for truthiness and hands it to [FormData]. *)
Variable File : Type.

(** The state hooks: [file] and those of [App.state]. *)
Record ui : Type := mkUi {
  file : option File;
  app : state
}.

Definition with_app (f : state -> state) (u : ui) : ui :=
  mkUi (file u) (f (app u)).

Definition setFile (f : option File) (u : ui) : ui := mkUi f (app u).

(** What a handler does to the world besides setting state. *)
Inductive effect : Type :=
| PreventDefault
| Get (r : request)
| PostUpload (f : File)
| Alert (msg : string)
| Focus (input : search_input).

(** A handler's run up to its end or its next [await]: the state, the
    effects in order, and the exception that escapes, if any. *)
Record outcome : Type := mkOutcome {
  next : ui;
  effects : list effect;
  thrown : option exn
}.

Definition quiet (u : ui) : outcome := mkOutcome u [] None.

(** [handleSearchNumberChange] *)
Definition handleSearchNumberChange (r : refs) (val : string) (u : ui)
  : outcome :=
  if negb (digits_only val) then quiet u
  else if String.length val <=? 8 then
    let u1 :=
      with_app (setSearchParams (val, snd (searchParams (app u)))) u in
    if String.length val =? 8 then
      if versionInputRef r then mkOutcome u1 [Focus VersionInput] None
      else mkOutcome u1 [] (Some TypeError)
    else quiet u1
  else quiet u.

(** [handleSearchVersionChange]; [executeSearch] is called with the
    number of the current render and runs up to its [await]. *)
Definition handleSearchVersionChange (val : string) (u : ui) : outcome :=
  if negb (digits_only val) then quiet u
  else if String.length val <=? 2 then
    let u1 :=
      with_app (setSearchParams (fst (searchParams (app u)), val)) u in
    if String.length val =? 2 then
      let '(s2, req) :=
        executeSearch_start (fst (searchParams (app u))) val (app u1) in
      mkOutcome (mkUi (file u1) s2) [Get req] None
    else quiet u1
  else quiet u.

(** The [onClick] of the clear button; [fetchTelegrams] runs up to its
    [await]. *)
Definition clear_onClick (r : refs) (u : ui) : outcome :=
  let u1 := with_app (setSearchParams ("", "")) u in
  let u2 := with_app (setSelectedTelegram VNull) u1 in
  mkOutcome u2
    (Get GetTelegrams :: if numberInputRef r then [Focus NumberInput] else [])
    None.

(** [handleFileChange]: [e.target.files[0]], [undefined] when no file
    was chosen. *)
Definition handleFileChange (files : list File) (u : ui) : outcome :=
  quiet (setFile (hd_error files) u).

(** [handleUpload] up to its first [await]. *)
Definition handleUpload_start (u : ui) : outcome :=
  match file u with
  | None => mkOutcome u [PreventDefault] None
  | Some f =>
      mkOutcome (with_app (fun s => setError None (setLoading true s)) u)
        [PreventDefault; PostUpload f] None
  end.

(** [handleUpload] from the settled [axios.post] to its second [await],
    or through [catch] and [finally] to its end. *)
Definition handleUpload_posted (res : response unit) (u : ui) : outcome :=
  match res with
  | Resolved _ => mkOutcome u [Get GetTelegrams] None
  | Rejected =>
      quiet (with_app
               (fun s =>
                  setLoading false
                    (setError (Some "アップロードまたは解析に失敗しました。") s))
               u)
  end.

(** [handleUpload] from the settled [fetchTelegrams], which catches its
    own failure, to its end. *)
Definition handleUpload_listed (res : response (list value)) (u : ui)
  : outcome :=
  let u1 := with_app (fetchTelegrams_settle res) u in
  let u2 := setFile None u1 in
  mkOutcome (with_app (setLoading false) u2)
    [Alert "アップロードと解析が完了しました。"] None.

(** [onClick={() => handleSelectTelegram(t.id)}] of a list item. *)
Definition item_onClick (t : value) (u : ui) : outcome :=
  match get t "id" with
  | Ok id =>
      let '(s1, req) := handleSelectTelegram_start id (app u) in
      mkOutcome (mkUi (file u) s1) [Get req] None
  | Throw e => mkOutcome u [] (Some e)
  end.

(** ** The component as a machine *)

(** What can happen to the mounted component: the user's actions and the
    settling of the requests in flight. *)
Inductive event : Type :=
| Mount
| ChangeNumber (val : string)
| ChangeVersion (val : string)
| ClickClear
| ChangeFile (files : list File)
| Submit
| ClickItem (t : value)
| ListSettled (res : response (list value))
| SearchSettled (res : response (list value))
| DetailSettled (res : response value)
| PostSettled (res : response unit)
| UploadListSettled (res : response (list value)).

Definition pending_effects (p : result (option request)) : list effect :=
  match p with
  | Ok (Some req) => [Get req]
  | _ => []
  end.

Definition step (r : refs) (u : ui) (e : event) : outcome :=
  match e with
  | Mount => mkOutcome u [Get GetTelegrams] None
  | ChangeNumber val => handleSearchNumberChange r val u
  | ChangeVersion val => handleSearchVersionChange val u
  | ClickClear => clear_onClick r u
  | ChangeFile files => handleFileChange files u
  | Submit => handleUpload_start u
  | ClickItem t => item_onClick t u
  | ListSettled res => quiet (with_app (fetchTelegrams_settle res) u)
  | SearchSettled res =>
      let '(s1, p) := executeSearch_settle res (app u) in
      mkOutcome (mkUi (file u) s1) (pending_effects p) None
  | DetailSettled res =>
      quiet (with_app (handleSelectTelegram_settle res) u)
  | PostSettled res => handleUpload_posted res u
  | UploadListSettled res => handleUpload_listed res u
  end.

(** The state after a sequence of events and the effects along the
    way. *)
Fixpoint run (r : refs) (es : list event) (u : ui) : ui * list effect :=
  match es with
  | [] => (u, [])
  | e :: rest =>
      let o := step r u e in
      let '(u', fx) := run r rest (next o) in
      (u', effects o ++ fx)
  end.

(** The hooks' initial values. *)
Definition initial : ui := mkUi None (mkState [] VNull false None ("", "")).

(** ** What is rendered *)

(** The form controls: [disabled] and [value] attributes and the label
    of the submit button. *)
Record controls : Type := mkControls {
  number_value : string;
  number_disabled : bool;
  version_value : string;
  version_disabled : bool;
  file_disabled : bool;
  submit_disabled : bool;
  submit_label : string
}.

Definition render_controls (u : ui) : controls :=
  let s := app u in
  mkControls (fst (searchParams s)) (loading s)
    (snd (searchParams s)) (loading s)
    (loading s)
    (match file u with None => true | Some _ => false end || loading s)
    (if loading s then "処理中..." else "解析・保存").

(** [{error && <div className="error-message">{error}</div>}] *)
Definition render_error (s : state) : option string :=
  match error s with
  | Some msg => if truthy (VStr msg) then Some msg else None
  | None => None
  end.

End Component.

Arguments mkUi {File} file app.
Arguments file {File} u.
Arguments app {File} u.
Arguments with_app {File} f u.
Arguments setFile {File} f u.
Arguments PreventDefault {File}.
Arguments Get {File} r.
Arguments PostUpload {File} f.
Arguments Alert {File} msg.
Arguments Focus {File} input.
Arguments mkOutcome {File} next effects thrown.
Arguments next {File} o.
Arguments effects {File} o.
Arguments thrown {File} o.
Arguments quiet {File} u.
Arguments handleSearchNumberChange {File} r val u.
Arguments handleSearchVersionChange {File} val u.
Arguments clear_onClick {File} r u.
Arguments handleFileChange {File} files u.
Arguments handleUpload_start {File} u.
Arguments handleUpload_posted {File} res u.
Arguments handleUpload_listed {File} res u.
Arguments item_onClick {File} t u.
Arguments Mount {File}.
Arguments ChangeNumber {File} val.
Arguments ChangeVersion {File} val.
Arguments ClickClear {File}.
Arguments ChangeFile {File} files.
Arguments Submit {File}.
Arguments ClickItem {File} t.
Arguments ListSettled {File} res.
Arguments SearchSettled {File} res.
Arguments DetailSettled {File} res.
Arguments PostSettled {File} res.
Arguments UploadListSettled {File} res.
Arguments pending_effects {File} p.
Arguments step {File} r u e.
Arguments run {File} r es u.
Arguments initial {File}.
Arguments render_controls {File} u.

(** ** The list *)

(** One [<li>] with its [className]: ['active'] or ['']. *)
Record li : Type := mkLi {
  item : list_item;
  active : bool
}.

(** [selectedTelegram && selectedTelegram.id === t.id ? 'active' : ''] *)
Definition is_active (selectedTelegram t : value) : result bool :=
  if truthy selectedTelegram then
    sid <- get selectedTelegram "id" ;;
    tid <- get t "id" ;;
    ret (strict_eq sid tid)
  else ret false.

Definition render_li (selectedTelegram t : value) (index : nat) : result li :=
  i <- render_item t ;;
  a <- is_active selectedTelegram t ;;
  ret (mkLi i a).

(** The list section: [データがありません] for an empty list, one [<li>]
    per telegram otherwise. *)
Inductive list_section : Type :=
| NoData
| Items (lis : list li).

Definition no_data_text : string := "データがありません".

Definition render_list (s : state) : result list_section :=
  match telegrams s with
  | [] => ret NoData
  | ts =>
      lis <- map (render_li (selectedTelegram s)) ts ;;
      ret (Items lis)
  end.

(** ** Reading the state *)

(** The [<li>] a telegram of the list is to be shown as: its own values,
    [名称不明] for a missing patient name, ["-"] for a missing order
    date, and highlighted when its [id] is that of the selection. *)
Definition shown_item (t : value) : list_item :=
  mkItem (opt_get t "id")
    (or (opt_get t "patient_name") (VStr "名称不明"))
    (opt_get t "patient_id") (opt_get t "order_number")
    (opt_get t "version")
    (or (opt_get t "order_date") dash).

Definition shown_active (selectedTelegram t : value) : bool :=
  truthy selectedTelegram
  && strict_eq (opt_get selectedTelegram "id") (opt_get t "id").

Definition shown_li (selectedTelegram t : value) : li :=
  mkLi (shown_item t) (shown_active selectedTelegram t).

(** At most [n] characters, all of them digits. *)
Definition digits_up_to (n : nat) (val : string) : Prop :=
  digits_only val = true /\ String.length val <= n.

(** The search boxes hold at most 8 and at most 2 digits. *)
Definition params_ok (s : state) : Prop :=
  digits_up_to 8 (fst (searchParams s))
  /\ digits_up_to 2 (snd (searchParams s)).

(** [error] is [null] or one of the handlers' messages. *)
Definition known_error (s : state) : Prop :=
  match error s with
  | None => True
  | Some msg =>
      In msg ["データの取得に失敗しました。"; "検索に失敗しました。";
              "アップロードまたは解析に失敗しました。";
              "詳細データの取得に失敗しました。"]
  end.


(** The messages the handlers put into [error]. *)
Definition error_messages : list string :=
  ["データの取得に失敗しました。"; "検索に失敗しました。";
   "アップロードまたは解析に失敗しました。";
   "詳細データの取得に失敗しました。"].

End Ui.

(* ===================================================================== *)
(** * The view, proved on the component                                   *)
(* ===================================================================== *)

Section ViewFacts.
Import Js App.
Local Open Scope js_scope.

Lemma get_defined (v : value) (k : string) :
  nullish v = false -> get v k = Js.Ok (opt_get v k).
Proof.
  destruct v; simpl; try discriminate; intros _; try reflexivity.
  destruct (lookup k props); reflexivity.
Qed.

Lemma get_throws (v : value) (k : string) :
  nullish v = true -> get v k = Throw TypeError.
Proof. destruct v; simpl; try discriminate; reflexivity. Qed.

Lemma truthy_defined (v : value) : truthy v = true -> nullish v = false.
Proof. destruct v; simpl; try discriminate; reflexivity. Qed.

Lemma is_prescription_defined (item : value) :
  nullish item = false ->
  is_prescription item = Js.Ok (has_attribute "ID1" item).
Proof.
  intros H. unfold is_prescription, has_attribute.
  rewrite (get_defined _ _ H). reflexivity.
Qed.

Lemma filter_defined (items : list value) :
  Forall (fun it => nullish it = false) items ->
  Js.filter is_prescription items
  = Js.Ok (List.filter (has_attribute "ID1") items).
Proof.
  induction 1 as [| it items Hit _ IH]; simpl; [reflexivity |].
  rewrite (is_prescription_defined _ Hit); simpl.
  rewrite IH; simpl.
  destruct (has_attribute "ID1" it); reflexivity.
Qed.


Lemma item_row_defined (item : value) (i : nat) :
  nullish item = false ->
  item_row item i
  = Js.Ok (mkRow i (opt_get item "name") (opt_get item "quantity")
             (opt_get item "unit_name") (opt_get item "code")).
Proof.
  intros H. unfold item_row.
  rewrite !(get_defined _ _ H). reflexivity.
Qed.

Lemma map_from_defined (items : list value) :
  Forall (fun it => nullish it = false) items ->
  forall i, exists rows,
    map_from i item_row items = Js.Ok rows
    /\ List.map cells rows = List.map item_cells items
    /\ List.map key rows = seq i (List.length items).
Proof.
  induction 1 as [| it items Hit _ IH]; intros i; simpl.
  - exists []. repeat split.
  - rewrite (item_row_defined _ _ Hit); simpl.
    destruct (IH (S i)) as (rows & -> & Hc & Hk); simpl.
    eexists; split; [reflexivity |]. simpl.
    rewrite Hc, Hk. split; reflexivity.
Qed.

Lemma filter_keeps_defined (f : value -> bool) (items : list value) :
  Forall (fun it => nullish it = false) items ->
  Forall (fun it => nullish it = false) (List.filter f items).
Proof.
  intros H. apply Forall_forall. intros it Hin.
  apply filter_In in Hin. destruct Hin as [Hin _].
  revert it Hin. apply Forall_forall. exact H.
Qed.

Lemma has_attribute_iff (tag : string) (item : value) :
  has_attribute tag item = true <-> attribute_is tag item.
Proof.
  unfold has_attribute, attribute_is, strict_eq_str.
  destruct (opt_get item "attribute"); split; intros H;
    try discriminate; try (inversion H; subst; apply String.eqb_refl).
  apply String.eqb_eq in H. subst. reflexivity.
Qed.

(** What the table body is, by the shape of [item_info]. *)
Lemma tbody_of_info (t info : value) :
  item_info t = Js.Ok info ->
  prescription_rows t
  = match info with
    | VUndefined | VNull => Js.Ok None
    | VArr items =>
        kept <- Js.filter is_prescription items ;;
        rows <- Js.map item_row kept ;;
        ret (Some rows)
    | _ => Throw TypeError
    end.
Proof.
  intros H. unfold prescription_rows, prescription_items.
  rewrite H; simpl.
  destruct info; simpl; try reflexivity.
  destruct (Js.filter is_prescription elems); reflexivity.
Qed.

(** C1.  For every telegram whose [raw_data.content.item_group.item_info]
    is an array of item lines, the prescription table is built from
    exactly the item lines whose attribute is ['ID1'], in their order:
    an item line is in the projection if and only if it is in
    [item_info] and tagged ['ID1'], each row shows the name, quantity,
    unit and code of its item line, and an item line with any other
    attribute, while in [item_info], is not in the projection.  The
    telegram itself is the same value before and after. *)
Theorem prescription_projection_exact :
  forall (t : value) (items : list value),
    item_info t = Js.Ok (VArr items) ->
    Forall (fun it => nullish it = false) items ->
    exists kept rows,
      prescription_items t = Js.Ok (Some kept)
      /\ prescription_tbody t = Js.Ok (Rows rows)
      /\ kept = List.filter (has_attribute "ID1") items
      /\ List.map cells rows = List.map item_cells kept
      /\ (forall it, In it kept <-> In it items /\ attribute_is "ID1" it)
      /\ (forall it, In it items -> ~ attribute_is "ID1" it -> ~ In it kept)
      /\ item_info t = Js.Ok (VArr items).
Proof.
  intros t items Hinfo Hdef.
  pose proof (filter_defined items Hdef) as Hf.
  destruct (map_from_defined _ (filter_keeps_defined (has_attribute "ID1") _ Hdef) 0)
    as (rows & Hrows & Hcells & _).
  exists (List.filter (has_attribute "ID1") items), rows.
  assert (Hitems : prescription_items t
                   = Js.Ok (Some (List.filter (has_attribute "ID1") items))).
  { unfold prescription_items. rewrite Hinfo; simpl. rewrite Hf. reflexivity. }
  assert (Hin : forall it,
             In it (List.filter (has_attribute "ID1") items)
             <-> In it items /\ attribute_is "ID1" it).
  { intros it. rewrite filter_In, has_attribute_iff. reflexivity. }
  split; [exact Hitems |].
  split.
  { unfold prescription_tbody. rewrite (tbody_of_info _ _ Hinfo).
    rewrite Hf; simpl. unfold Js.map. rewrite Hrows. reflexivity. }
  split; [reflexivity |].
  split; [exact Hcells |].
  split; [exact Hin |].
  split; [| exact Hinfo].
  intros it _ Hn Hk. apply Hin in Hk. tauto.
Qed.

Lemma prescription_projection_witness :
  exists kept rows,
    prescription_items (Sample.json_telegram (VArr Sample.json_items))
    = Js.Ok (Some kept)
    /\ prescription_tbody (Sample.json_telegram (VArr Sample.json_items))
       = Js.Ok (Rows rows)
    /\ kept = [Sample.json_item "ID1" "薬剤A"; Sample.json_item "ID1" "薬剤B"]
    /\ List.length rows = 2.
Proof.
  destruct (prescription_projection_exact
              (Sample.json_telegram (VArr Sample.json_items))
              Sample.json_items eq_refl)
    as (kept & rows & Hk & Hb & Hf & Hc & _).
  - repeat constructor.
  - exists kept, rows. repeat split; try assumption.
    apply (f_equal (@List.length _)) in Hc.
    rewrite !length_map in Hc. rewrite Hc, Hf. reflexivity.
Defined.

(** A [null] among the item lines makes the filter callback throw: the
    table is not rendered at all. *)
Lemma null_item_line_throws :
  prescription_tbody
    (Sample.json_telegram (VArr [Sample.json_item "ID1" "薬剤A"; VNull]))
  = Throw TypeError.
Proof. reflexivity. Qed.

Lemma no_prescription_lines (items : list value) :
  (forall it, In it items -> ~ attribute_is "ID1" it) ->
  List.filter (has_attribute "ID1") items = [].
Proof.
  induction items as [| it items IH]; intros H; simpl; [reflexivity |].
  destruct (has_attribute "ID1" it) eqn:Ha.
  - apply has_attribute_iff in Ha. exfalso. apply (H it); [left; reflexivity | exact Ha].
  - apply IH. intros it' Hin. apply H. right. exact Hin.
Qed.

(** C9.  In the prescription table the fallback row (項目なし) is
    rendered exactly when [raw_data?.content?.item_group?.item_info] is
    [undefined] or [null], that is, exactly when the optional chain
    yields [undefined]; when [item_info] is an array without any item
    line tagged ['ID1'], the chain yields the empty array, the table
    body is empty and the fallback row is not shown. *)
Theorem placeholder_row_iff_item_info_absent :
  forall (t info : value),
    item_info t = Js.Ok info ->
    (prescription_tbody t = Js.Ok NoItems <-> nullish info = true)
    /\ (prescription_rows t = Js.Ok None <-> nullish info = true)
    /\ (forall items,
          info = VArr items ->
          Forall (fun it => nullish it = false) items ->
          (forall it, In it items -> ~ attribute_is "ID1" it) ->
          prescription_rows t = Js.Ok (Some [])
          /\ prescription_tbody t = Js.Ok (Rows [])).
Proof.
  intros t info Hinfo.
  pose proof (tbody_of_info _ _ Hinfo) as Hrows.
  assert (Hchain : prescription_rows t = Js.Ok None <-> nullish info = true).
  { rewrite Hrows. destruct info; simpl; split; intros H;
      try reflexivity; try discriminate.
    destruct (Js.filter is_prescription elems); simpl in H; [| discriminate].
    destruct (Js.map item_row a); discriminate. }
  split; [| split; [exact Hchain |]].
  - rewrite <- Hchain. unfold prescription_tbody.
    destruct (prescription_rows t) as [[rows |] | e]; simpl;
      split; intros H; try reflexivity; discriminate.
  - intros items -> Hdef Hnone.
    assert (Hr : prescription_rows t = Js.Ok (Some [])).
    { rewrite Hrows, (filter_defined _ Hdef), (no_prescription_lines _ Hnone).
      reflexivity. }
    split; [exact Hr |].
    unfold prescription_tbody. rewrite Hr. reflexivity.
Qed.

Lemma placeholder_row_witness :
  (prescription_tbody (Sample.json_telegram VNull) = Js.Ok NoItems
   <-> nullish VNull = true)
  /\ prescription_tbody
       (Sample.json_telegram (VArr [Sample.json_item "ZZ9" "comment"]))
     = Js.Ok (Rows []).
Proof.
  split.
  - apply (placeholder_row_iff_item_info_absent
             (Sample.json_telegram VNull) VNull eq_refl).
  - apply (proj2 (proj2 (placeholder_row_iff_item_info_absent
             (Sample.json_telegram (VArr [Sample.json_item "ZZ9" "comment"]))
             (VArr [Sample.json_item "ZZ9" "comment"]) eq_refl))
             [Sample.json_item "ZZ9" "comment"] eq_refl).
    + repeat constructor.
    + intros it [<- | []]. unfold attribute_is. simpl. discriminate.
Defined.

(** C10.  For every search call that runs to the end of its [try]
    block, the telegram list is replaced by the results; when the
    results are not empty the detail of the first one is requested by
    its [id], and the response to that request becomes the selected
    telegram; when they are empty no request is left pending and the
    selected telegram is [null]. *)
Theorem search_selects_first_or_clears :
  forall (number version : string) (results : list value)
         (s s' : state) (pending : option request),
    executeSearch_settle (Resolved results)
      (fst (executeSearch_start number version s)) = (s', Js.Ok pending) ->
    telegrams s' = results
    /\ match results with
       | first :: _ =>
           exists id,
             get first "id" = Js.Ok id
             /\ pending = Some (GetDetail id)
             /\ (forall d,
                   selectedTelegram
                     (handleSelectTelegram_settle (Resolved d) s') = d)
             /\ (forall detail d,
                   detail id = Resolved d ->
                   selectedTelegram
                     (search_run number version (Resolved results) detail s)
                   = d)
       | [] =>
           pending = None
           /\ selectedTelegram s' = VNull
           /\ (forall detail,
                 search_run number version (Resolved results) detail s = s')
       end.
Proof.
  intros number version results s s' pending.
  unfold search_run, executeSearch_start; simpl fst.
  destruct results as [| first rest].
  - simpl. intros H. injection H as <- <-. repeat split.
  - unfold executeSearch_settle, executeSearch_try.
    destruct (get first "id") as [id | e] eqn:Hid; simpl.
    + intros H. injection H as <- <-. split; [reflexivity |].
      exists id. repeat split.
      intros detail d ->. reflexivity.
    + discriminate.
Qed.

Lemma search_selects_first_witness :
  selectedTelegram
    (search_run "12345678" "01" (Resolved [Sample.json_telegram VNull])
       (fun _ => Resolved (Sample.json_telegram (VArr Sample.json_items)))
       Sample.initial_state)
  = Sample.json_telegram (VArr Sample.json_items).
Proof.
  pose proof (search_selects_first_or_clears "12345678" "01"
                [Sample.json_telegram VNull] Sample.initial_state _ _ eq_refl)
    as [_ (id & _ & _ & _ & Hrun)].
  apply Hrun. reflexivity.
Defined.

(** A result list whose first element is [null] leaves the [try] block
    through [catch]: the list is replaced, nothing is requested and the
    search error is shown. *)
Lemma search_null_first_fails :
  executeSearch_settle (Resolved [VNull])
    (fst (executeSearch_start "12345678" "01" Sample.initial_state))
  = (mkState [VNull] (Sample.json_telegram VNull) false
       (Some "検索に失敗しました。") ("", ""),
     Throw TypeError).
Proof. reflexivity. Qed.

End ViewFacts.

(* ===================================================================== *)
(** * The core, proved on the model of the specification                  *)
(* ===================================================================== *)

Section ValidatorFacts.
Import Core Format.
Local Open Scope core_scope.

Lemma is_digit_spec (c : ascii) :
  is_digit c = true <-> 48 <= nat_of_ascii c <= 57.
Proof.
  unfold is_digit. rewrite andb_true_iff, !Nat.leb_le. reflexivity.
Qed.

Lemma all_digits_spec (s : string) :
  all_digits s = true
  <-> forall c, In c (list_ascii_of_string s) -> 48 <= nat_of_ascii c <= 57.
Proof.
  unfold all_digits. rewrite forallb_forall.
  split; intros H c Hc; apply is_digit_spec, H, Hc.
Qed.

Lemma all_digits_false (s : string) :
  all_digits s = false
  <-> exists c, In c (list_ascii_of_string s)
        /\ ~ (48 <= nat_of_ascii c <= 57).
Proof.
  unfold all_digits.
  induction (list_ascii_of_string s) as [| c l IH]; simpl.
  - split; [discriminate | intros (c & [] & _)].
  - rewrite andb_false_iff, IH. split.
    + intros [Hc | (c' & Hin & Hn)].
      * exists c. split; [left; reflexivity |].
        rewrite <- is_digit_spec, Hc. discriminate.
      * exists c'. split; [right; exact Hin | exact Hn].
    + intros (c' & [<- | Hin] & Hn).
      * left. destruct (is_digit c) eqn:Hd; [| reflexivity].
        apply is_digit_spec in Hd. contradiction.
      * right. exists c'. split; assumption.
Qed.

Lemma option_string_eqb_spec (a b : option string) :
  option_string_eqb a b = true <-> a = b.
Proof.
  destruct a as [x |], b as [y |]; simpl; split; intros H;
    try discriminate; try reflexivity.
  - apply String.eqb_eq in H. subst. reflexivity.
  - injection H as ->. apply String.eqb_refl.
Qed.

Lemma option_string_eqb_false (a b : option string) :
  option_string_eqb a b = false <-> a <> b.
Proof.
  rewrite <- option_string_eqb_spec.
  destruct (option_string_eqb a b); split; intros H;
    try discriminate; try reflexivity; congruence.
Qed.

Lemma has_attribute_false (items : list item_line) :
  forallb has_attribute items = false
  <-> exists it, In it items
        /\ (attribute it = None \/ attribute it = Some "").
Proof.
  induction items as [| it items IH]; simpl.
  - split; [discriminate | intros (it & [] & _)].
  - rewrite andb_false_iff, IH. split.
    + intros [Hit | (it' & Hin & H)].
      * exists it. split; [left; reflexivity |].
        unfold has_attribute in Hit.
        destruct (attribute it) as [a |]; [right | left; reflexivity].
        apply negb_false_iff, String.eqb_eq in Hit. subst. reflexivity.
      * exists it'. split; [right; exact Hin | exact H].
    + intros (it' & [<- | Hin] & H).
      * left. unfold has_attribute. destruct H as [-> | ->]; reflexivity.
      * right. exists it'. split; assumption.
Qed.

Lemma unless_in (b : bool) (x ru : rule) :
  In ru (if b then [] else [x]) <-> ru = x /\ b = false.
Proof.
  destruct b; simpl; split.
  - intros [].
  - intros [_ H]. discriminate.
  - intros [<- | []]. split; reflexivity.
  - intros [-> _]. left. reflexivity.
Qed.

(** Membership in what one identifier check reports. *)
Lemma check_identifier_in (missing bad_length bad_digits ru : rule)
  (n : nat) (v : option string) :
  In ru (check_identifier missing bad_length bad_digits n v)
  <-> (ru = missing /\ v = None)
      \/ (ru = bad_length /\ exists s, v = Some s /\ String.length s <> n)
      \/ (ru = bad_digits /\ exists s, v = Some s /\ all_digits s = false).
Proof.
  unfold check_identifier. destruct v as [s |].
  - rewrite in_app_iff, !unless_in. split.
    + intros [[-> Hl] | [-> Hd]]; right; [left | right];
        (split; [reflexivity | exists s; split; [reflexivity |]]).
      * apply Nat.eqb_neq. exact Hl.
      * exact Hd.
    + intros [[_ H] | [[-> (s' & H & H')] | [-> (s' & H & H')]]];
        [discriminate | |]; injection H as <-; [left | right];
        (split; [reflexivity |]).
      * apply Nat.eqb_neq. exact H'.
      * exact H'.
  - simpl. split.
    + intros [<- | []]. left. split; reflexivity.
    + intros [[-> _] | [[_ (s & H & _)] | [_ (s & H & _)]]];
        try discriminate. left. reflexivity.
Qed.

(** The Validator's list holds a rule exactly when the record violates
    it. *)
Lemma violations_spec (ru : rule) (r : parsed_record) :
  In ru (violations r) <-> violated ru r.
Proof.
  unfold violations.
  rewrite !in_app_iff, !check_identifier_in, !unless_in,
    !option_string_eqb_false, has_attribute_false.
  setoid_rewrite all_digits_false.
  destruct ru; simpl; split; intros H;
    repeat match goal with
           | H : _ \/ _ |- _ => destruct H as [H | H]
           | H : _ /\ _ |- _ => destruct H as [? H]
           | H : exists _, _ |- _ => destruct H as [? H]
           end;
    try discriminate; eauto 12.
Qed.

Lemma validator_ok (r r' : parsed_record) :
  validator r = Ok r' -> r' = r /\ violations r = [].
Proof.
  unfold validator. destruct (violations r); [| discriminate].
  intros H. injection H as <-. split; reflexivity.
Qed.

Lemma validator_err (r : parsed_record) :
  violations r <> [] -> validator r = Err (ValidationError (violations r)).
Proof.
  unfold validator. destruct (violations r); [congruence | reflexivity].
Qed.

Lemma parse_validated (sch : schema_table) (s : stream) (r : parsed_record) :
  parse sch s = Ok r -> assemble sch s = Ok r /\ validator r = Ok r.
Proof.
  unfold parse. destruct (assemble sch s) as [r0 | e]; simpl; [| discriminate].
  intros H. destruct (validator_ok _ _ H) as [-> _]. split; [reflexivity | exact H].
Qed.

Lemma no_violation_identifier (missing bad_length bad_digits : rule)
  (n : nat) (v : option string) :
  check_identifier missing bad_length bad_digits n v = [] ->
  exists s, v = Some s /\ digits_of_length n s.
Proof.
  unfold check_identifier. destruct v as [s |]; [| discriminate].
  intros H. apply app_eq_nil in H. destruct H as [Hl Hd].
  exists s. split; [reflexivity |]. split.
  - destruct (Nat.eqb_spec (String.length s) n); [assumption | discriminate].
  - apply all_digits_spec. destruct (all_digits s); [reflexivity | discriminate].
Qed.

(** C2.  For every stream the parser accepts, the record's
    [order_number] is present, 8 characters long and all ASCII digits,
    and its [version] is present, 2 characters long and all ASCII
    digits. *)
Theorem parsed_identifiers_well_formed :
  forall (sch : schema_table) (s : stream) (r : parsed_record),
    parse sch s = Ok r ->
    exists n v,
      order_number r = Some n /\ digits_of_length 8 n
      /\ record_version r = Some v /\ digits_of_length 2 v.
Proof.
  intros sch s r H.
  destruct (parse_validated _ _ _ H) as [_ Hv].
  destruct (validator_ok _ _ Hv) as [_ Hnone].
  unfold violations in Hnone.
  apply app_eq_nil in Hnone. destruct Hnone as [Hn Hrest].
  apply app_eq_nil in Hrest. destruct Hrest as [Hver _].
  destruct (no_violation_identifier _ _ _ _ _ Hn) as (n & Hn1 & Hn2).
  destruct (no_violation_identifier _ _ _ _ _ Hver) as (v & Hv1 & Hv2).
  exists n, v. auto.
Qed.

(** C4.  In every validated record [order_info.number] and
    [order_info.version] equal the top-level [order_number] and
    [version]; the Validator checks it: a record in which either pair
    differs is rejected with a [ValidationError] that lists the
    agreement rule. *)
Theorem validated_record_agrees :
  (forall r r' : parsed_record,
      validator r = Ok r' ->
      number (order (raw_data r')) = order_number r'
      /\ version (order (raw_data r')) = record_version r')
  /\ (forall (sch : schema_table) (s : stream) (r : parsed_record),
        parse sch s = Ok r ->
        number (order (raw_data r)) = order_number r
        /\ version (order (raw_data r)) = record_version r)
  /\ (forall r : parsed_record,
        number (order (raw_data r)) <> order_number r ->
        exists vs, validator r = Err (ValidationError vs)
                   /\ In OrderInfoNumberAgrees vs)
  /\ (forall r : parsed_record,
        version (order (raw_data r)) <> record_version r ->
        exists vs, validator r = Err (ValidationError vs)
                   /\ In OrderInfoVersionAgrees vs).
Proof.
  assert (Hok : forall r r' : parsed_record,
             validator r = Ok r' ->
             number (order (raw_data r')) = order_number r'
             /\ version (order (raw_data r')) = record_version r').
  { intros r r' H. destruct (validator_ok _ _ H) as [-> Hnone].
    split.
    - destruct (option_string_eqb (number (order (raw_data r)))
                  (order_number r)) eqn:He.
      + apply option_string_eqb_spec. exact He.
      + apply option_string_eqb_false in He.
        assert (Hin : In OrderInfoNumberAgrees (violations r))
          by (apply violations_spec; exact He).
        rewrite Hnone in Hin. destruct Hin.
    - destruct (option_string_eqb (version (order (raw_data r)))
                  (record_version r)) eqn:He.
      + apply option_string_eqb_spec. exact He.
      + apply option_string_eqb_false in He.
        assert (Hin : In OrderInfoVersionAgrees (violations r))
          by (apply violations_spec; exact He).
        rewrite Hnone in Hin. destruct Hin. }
  assert (Hrej : forall (ru : rule) (r : parsed_record),
             violated ru r ->
             exists vs, validator r = Err (ValidationError vs) /\ In ru vs).
  { intros ru r Hv. apply violations_spec in Hv.
    exists (violations r). split; [| exact Hv].
    apply validator_err. intros Hnil. rewrite Hnil in Hv. destruct Hv. }
  split; [exact Hok |]. split.
  - intros sch s r H. apply (Hok r r).
    apply (parse_validated _ _ _ H).
  - split; intros r Hne; [apply (Hrej OrderInfoNumberAgrees) |
                          apply (Hrej OrderInfoVersionAgrees)]; exact Hne.
Qed.

End ValidatorFacts.

Section SegmenterFacts.
Import Core Format.
Local Open Scope core_scope.

(** ** Reading octets *)

Lemma take_app (n : nat) (a b : list ascii) :
  List.length a = n -> take n (a ++ b) = Some (a, b).
Proof.
  intros <-. unfold take. rewrite length_app.
  destruct (Nat.leb_spec (List.length a) (List.length a + List.length b));
    [| lia].
  rewrite firstn_app, Nat.sub_diag, firstn_all, skipn_app, Nat.sub_diag,
    skipn_all. simpl. rewrite app_nil_r. reflexivity.
Qed.



Lemma split_at_app (d : ascii) (v rest : list ascii) :
  ~ In d v -> split_at d (v ++ d :: rest) = Some (v, rest).
Proof.
  induction v as [| c v IH]; simpl; intros H.
  - rewrite Ascii.eqb_refl. reflexivity.
  - destruct (Ascii.eqb_spec c d) as [-> | _]; [exfalso; auto |].
    rewrite IH by auto. reflexivity.
Qed.


Lemma read_field_encode (r : field_rule) (v rest : list ascii) :
  fits r v -> read_field r (encode_field r v ++ rest) = Some (v, rest).
Proof.
  destruct r as [n | d]; simpl; intros H.
  - apply take_app. exact H.
  - rewrite <- app_assoc. simpl. apply split_at_app. exact H.
Qed.


Lemma read_fields_encode (fs : list field_spec) (vs : values)
  (rest : list ascii) :
  Forall2 (fun f v => fits (rule_of f) v) fs vs ->
  read_fields fs (encode_fields fs vs ++ rest)
  = Some (combine (List.map field_name fs)
                  (List.map string_of_list_ascii vs), rest).
Proof.
  induction 1 as [| f v fs vs Hfit _ IH]; simpl; [reflexivity |].
  rewrite <- app_assoc, (read_field_encode _ _ _ Hfit), IH. reflexivity.
Qed.


(** ** Reading segments *)

Lemma segment_type_eqb_refl (ty : segment_type) : segment_type_eqb ty ty = true.
Proof. destruct ty; reflexivity. Qed.

Lemma code_width_pos (sch : schema_table) :
  schema_ok sch -> 0 < code_width sch.
Proof.
  intros Hok. destruct (code_width sch) eqn:Hw; [| lia].
  destruct (Hok Header) as [Hh Hrh], (Hok Patient) as [Hp Hrp].
  rewrite Hw in Hh, Hp. apply length_zero_iff_nil in Hh, Hp.
  rewrite Hh in Hrh. rewrite Hp in Hrp. congruence.
Qed.

Lemma encode_segment_length (sch : schema_table) (ty : segment_type)
  (vs : values) :
  schema_ok sch -> code_width sch <= List.length (encode_segment sch ty vs).
Proof.
  intros Hok. unfold encode_segment. rewrite length_app.
  destruct (Hok ty) as [-> _]. lia.
Qed.

(** A whole segment is read back, whatever follows it. *)
Lemma read_segment_encode (sch : schema_table) (ty : segment_type)
  (vs : values) (rest : stream) (off : nat) :
  schema_ok sch -> values_fit sch ty vs ->
  read_segment sch ty (encode_segment sch ty vs ++ rest) off
  = Ok ((ty, fields_of sch ty vs), rest,
        off + List.length (encode_segment sch ty vs)).
Proof.
  intros Hok Hfit. destruct (Hok ty) as [Hlen Hrec].
  unfold read_segment, encode_segment.
  rewrite <- app_assoc, (take_app _ _ _ Hlen), Hrec, segment_type_eqb_refl.
  rewrite (read_fields_encode _ _ _ Hfit).
  unfold fields_of. do 3 f_equal.
  rewrite !length_app. lia.
Qed.





(** ** The repeating group *)

Lemma take_code (sch : schema_table) (ty : segment_type) (vs : values)
  (rest : list ascii) :
  schema_ok sch ->
  take (code_width sch) (encode_segment sch ty vs ++ rest)
  = Some (type_code sch ty, encode_fields (layout sch ty) vs ++ rest).
Proof.
  intros Hok. unfold encode_segment. rewrite <- app_assoc.
  apply take_app. apply (Hok ty).
Qed.

(** The item lines of a message are read back in their order, up to
    whatever follows the group, provided that does not start with the
    item-line code. *)
Lemma read_items_encode (sch : schema_table) (rest : stream) :
  schema_ok sch ->
  (forall c r, take (code_width sch) rest = Some (c, r) ->
               recognise sch c <> Some ItemLine) ->
  forall (items : list values) (fuel off : nat),
    Forall (values_fit sch ItemLine) items ->
    List.length (encode_items sch items ++ rest) <= fuel ->
    read_items sch fuel (encode_items sch items ++ rest) off
    = Ok (List.map (fun vs => (ItemLine, fields_of sch ItemLine vs)) items,
          rest, off + List.length (encode_items sch items)).
Proof.
  intros Hok Hrest. induction items as [| it items IH];
    intros fuel off Hfit Hfuel.
  - simpl. rewrite Nat.add_0_r. destruct fuel; simpl; [reflexivity |].
    destruct (take (code_width sch) rest) as [[c r] |] eqn:Ht; [| reflexivity].
    specialize (Hrest c r eq_refl).
    destruct (recognise sch c) as [[] |]; try reflexivity. congruence.
  - inversion Hfit as [| ? ? Hit Hits]; subst.
    unfold encode_items in *. simpl concat in *.
    rewrite <- app_assoc in *.
    pose proof (code_width_pos sch Hok) as Hpos.
    pose proof (encode_segment_length sch ItemLine it Hok) as Hlen.
    rewrite length_app in Hfuel.
    destruct fuel as [| fuel]; [lia |].
    simpl read_items. rewrite (take_code _ _ _ _ Hok).
    destruct (Hok ItemLine) as [_ ->].
    rewrite (read_segment_encode _ _ _ _ _ Hok Hit). simpl.
    rewrite IH by (assumption || lia). simpl.
    rewrite length_app. do 2 f_equal. lia.
Qed.


(** ** The Segmenter on whole telegrams *)

(** The Segmenter emits the segments of a well-formed telegram in
    source order. *)
Lemma segmenter_wire (sch : schema_table) (m : message) :
  schema_ok sch -> message_fits sch m ->
  segmenter sch (wire sch m) = Ok (segments_of sch m).
Proof.
  intros Hok (Hh & Hp & Ho & Hd & Hi & Ht).
  unfold segmenter, wire.
  rewrite (read_segment_encode _ _ _ _ _ Hok Hh); simpl.
  rewrite (read_segment_encode _ _ _ _ _ Hok Hp); simpl.
  rewrite (read_segment_encode _ _ _ _ _ Hok Ho); simpl.
  rewrite (read_segment_encode _ _ _ _ _ Hok Hd); simpl.
  rewrite (read_items_encode sch _ Hok); [| | exact Hi | apply Nat.le_refl].
  - simpl.
    pose proof (read_segment_encode sch Trailer (trailer_values m) []
                  (List.length (encode_segment sch Header (header_values m))
                   + List.length (encode_segment sch Patient (patient_values m))
                   + List.length (encode_segment sch Order (order_values m))
                   + List.length (encode_segment sch Doctor (doctor_values m))
                   + List.length (encode_items sch (item_values m)))
                  Hok Ht) as Hread.
    rewrite app_nil_r in Hread. rewrite Hread. reflexivity.
  - intros c r Htake.
    pose proof (take_code sch Trailer (trailer_values m) [] Hok) as Hc.
    rewrite app_nil_r in Hc. rewrite Hc in Htake. injection Htake as <- _.
    destruct (Hok Trailer) as [_ ->]. discriminate.
Qed.

(** ** The Record Builder *)

(** Item lines are appended in arrival order, whatever else arrives. *)
Lemma builder_items_in_order (ms : list mapped_segment) :
  forall b : builder,
    b_items (fold_left add_segment ms b)
    = b_items b
      ++ List.map (fun m => to_item (m_fields m)) (List.filter is_item_line ms).
Proof.
  induction ms as [| m ms IH]; intros b; simpl.
  - rewrite app_nil_r. reflexivity.
  - rewrite IH. unfold is_item_line at 2, add_segment.
    destruct (m_type m); simpl; try reflexivity.
    rewrite <- app_assoc. reflexivity.
Qed.

(** Item lines and trailers leave the singleton objects alone. *)
Lemma builder_keeps_singletons (ms : list mapped_segment) :
  Forall (fun m => m_type m = ItemLine \/ m_type m = Trailer) ms ->
  forall b : builder,
    b_patient (fold_left add_segment ms b) = b_patient b
    /\ b_order (fold_left add_segment ms b) = b_order b
    /\ b_doctor (fold_left add_segment ms b) = b_doctor b.
Proof.
  induction 1 as [| m ms Hm _ IH]; intros b; simpl.
  - repeat split.
  - destruct (IH (add_segment b m)) as (-> & -> & ->).
    unfold add_segment. destruct Hm as [-> | ->]; repeat split.
Qed.

Lemma field_known (ty : segment_type) (k : string) (raw : raw_field_map) :
  known ty k = true ->
  field k (List.filter (fun kv => known ty (fst kv)) raw) = field k raw.
Proof.
  intros Hk. induction raw as [| [k' v] raw IH]; simpl; [reflexivity |].
  destruct (known ty k') eqn:Hk'; simpl.
  - rewrite IH. reflexivity.
  - destruct (String.eqb_spec k' k) as [-> | _]; [congruence | exact IH].
Qed.

(** The record assembled from a well-formed telegram. *)
Lemma assemble_wire (sch : schema_table) (m : message) :
  schema_ok sch -> message_fits sch m ->
  exists extra, assemble sch (wire sch m) = Ok (expected_record sch m extra).
Proof.
  intros Hok Hfit. unfold assemble.
  rewrite (segmenter_wire _ _ Hok Hfit); cbn [bind].
  unfold segments_of, record_builder. cbv zeta.
  rewrite map_app, fold_left_app.
  set (b4 := fold_left add_segment _ empty_builder).
  match goal with
  | |- context [fold_left add_segment ?t b4] => set (tail := t)
  end.
  assert (Htail : Forall (fun x => m_type x = ItemLine \/ m_type x = Trailer)
                    tail).
  { unfold tail. rewrite map_app. apply Forall_app. split.
    - rewrite map_map. apply Forall_forall. intros x Hx.
      apply in_map_iff in Hx. destruct Hx as (vs & <- & _). left. reflexivity.
    - constructor; [right; reflexivity | constructor]. }
  assert (Hitems : b_items (fold_left add_segment tail b4)
                   = List.map (item_of sch) (item_values m)).
  { rewrite builder_items_in_order. simpl.
    unfold tail. rewrite map_app, filter_app, map_app, !map_map. simpl.
    rewrite app_nil_r. clear.
    induction (item_values m) as [| vs items IH]; simpl; [reflexivity |].
    rewrite IH. reflexivity. }
  destruct (builder_keeps_singletons tail Htail b4) as (-> & -> & ->).
  simpl. rewrite !field_known by reflexivity. rewrite Hitems.
  eexists. reflexivity.
Qed.

(** ** Sample table and telegrams *)

Lemma sample_schema_ok : schema_ok Sample.schema.
Proof. intros []; split; reflexivity. Qed.

Lemma sample_telegram_fits (number : string) :
  ~ In "|"%char (list_ascii_of_string number) ->
  message_fits Sample.schema (Sample.telegram number).
Proof.
  intros Hn.
  repeat split; repeat constructor; simpl; try exact Hn;
    intuition discriminate.
Qed.

(** ** Truncated streams *)


End SegmenterFacts.

Section ParserFacts.
Import Core Format.
Local Open Scope core_scope.


Lemma sample_short_number_fits :
  ~ In "|"%char (list_ascii_of_string "1234567").
Proof. simpl. intuition discriminate. Qed.

Lemma parsed_identifiers_witness :
  exists r n v,
    parse Sample.schema (wire Sample.schema (Sample.telegram "12345678"))
    = Ok r
    /\ order_number r = Some n /\ digits_of_length 8 n
    /\ record_version r = Some v /\ digits_of_length 2 v.
Proof.
  destruct (parse Sample.schema
              (wire Sample.schema (Sample.telegram "12345678")))
    as [r | e] eqn:Hparse.
  - destruct (parsed_identifiers_well_formed _ _ _ Hparse) as (n & v & H).
    exists r, n, v. split; [reflexivity | exact H].
  - vm_compute in Hparse. discriminate.
Defined.

Lemma validated_record_agrees_witness :
  exists r,
    parse Sample.schema (wire Sample.schema (Sample.telegram "12345678"))
    = Ok r
    /\ number (order (raw_data r)) = order_number r
    /\ version (order (raw_data r)) = record_version r.
Proof.
  destruct (parse Sample.schema
              (wire Sample.schema (Sample.telegram "12345678")))
    as [r | e] eqn:Hparse.
  - exists r. split; [reflexivity |].
    apply (proj1 (proj2 validated_record_agrees) _ _ _ Hparse).
  - vm_compute in Hparse. discriminate.
Defined.

Lemma filter_mapped (segs : list segment) :
  List.filter is_item_line (List.map field_mapper segs)
  = List.map field_mapper (List.filter is_item_segment segs).
Proof.
  induction segs as [| [ty raw] segs IH]; [reflexivity |].
  cbn [List.filter List.map]. rewrite IH.
  change (is_item_line (field_mapper (ty, raw)))
    with (segment_type_eqb ty ItemLine).
  change (is_item_segment (ty, raw)) with (segment_type_eqb ty ItemLine).
  destruct (segment_type_eqb ty ItemLine); reflexivity.
Qed.

(** Whatever stream the parser accepts, [item_info] lists the item-line
    segments in the order the Segmenter emitted them. *)
Lemma accepted_items_in_segment_order (sch : schema_table) (s : stream)
  (r : parsed_record) :
  parse sch s = Ok r ->
  exists segs,
    segmenter sch s = Ok segs
    /\ item_info (raw_data r)
       = List.map (fun seg => to_item (m_fields (field_mapper seg)))
           (List.filter is_item_segment segs).
Proof.
  intros Hparse. destruct (parse_validated _ _ _ Hparse) as [Ha _].
  unfold assemble in Ha.
  destruct (segmenter sch s) as [segs | e]; cbn [bind] in Ha; [| discriminate].
  exists segs. split; [reflexivity |].
  unfold record_builder in Ha. cbv zeta in Ha.
  destruct (b_patient _) as [pt |]; [| discriminate].
  destruct (b_order _) as [[[n v] dept] |]; [| discriminate].
  destruct (b_doctor _) as [d |]; [| discriminate].
  injection Ha as <-. simpl.
  rewrite builder_items_in_order, filter_mapped, map_map. reflexivity.
Qed.



(** C5.  The Validator returns its input unchanged when no rule is
    violated, and otherwise one [ValidationError] whose list holds
    exactly the violated rules, all of them.  A telegram whose order
    number field holds 7 digits fails with a [ValidationError] that
    lists the order-number-length rule, and ingesting it leaves the
    store as it was. *)
Theorem validator_reports_every_violation :
  (forall r : parsed_record,
      (validator r = Ok r /\ forall ru, ~ violated ru r)
      \/ (exists vs,
            validator r = Err (ValidationError vs)
            /\ vs <> []
            /\ forall ru, In ru vs <-> violated ru r))
  /\ (forall (sch : schema_table) (m : message) (n : string) (db : store),
        schema_ok sch -> message_fits sch m ->
        field "number" (fields_of sch Order (order_values m)) = Some n ->
        digits_of_length 7 n ->
        exists vs,
          parse sch (wire sch m) = Err (ValidationError vs)
          /\ In OrderNumberLength vs
          /\ ingest sch db (wire sch m) = (db, Err (ValidationError vs))).
Proof.
  split.
  - intros r. unfold validator.
    destruct (violations r) as [| ru0 vs] eqn:Hv.
    + left. split; [reflexivity |].
      intros ru H. apply violations_spec in H. rewrite Hv in H. destruct H.
    + right. exists (ru0 :: vs). split; [reflexivity |].
      split; [discriminate |].
      intros ru. rewrite <- Hv. apply violations_spec.
  - intros sch m n db Hok Hfit Hfield [Hlen _].
    destruct (assemble_wire sch m Hok Hfit) as (extra & Ha).
    set (r0 := expected_record sch m extra) in *.
    assert (Hin : In OrderNumberLength (violations r0)).
    { apply violations_spec. exists n. split; [exact Hfield |].
      rewrite Hlen. discriminate. }
    assert (Hp : parse sch (wire sch m)
                 = Err (ValidationError (violations r0))).
    { unfold parse. rewrite Ha. cbn [bind]. apply validator_err.
      intros Hnil. rewrite Hnil in Hin. destruct Hin. }
    exists (violations r0). split; [exact Hp |]. split; [exact Hin |].
    unfold ingest. rewrite Hp. reflexivity.
Qed.

Lemma validator_reports_every_violation_witness :
  exists vs,
    parse Sample.schema (wire Sample.schema (Sample.telegram "1234567"))
    = Err (ValidationError vs)
    /\ In OrderNumberLength vs
    /\ ingest Sample.schema (mkStore [] 1 0)
         (wire Sample.schema (Sample.telegram "1234567"))
       = (mkStore [] 1 0, Err (ValidationError vs)).
Proof.
  apply (proj2 validator_reports_every_violation Sample.schema
           (Sample.telegram "1234567") "1234567" (mkStore [] 1 0)
           sample_schema_ok (sample_telegram_fits _ sample_short_number_fits)).
  - reflexivity.
  - split; [reflexivity |].
    simpl. intros c Hc.
    repeat (destruct Hc as [<- | Hc]; [vm_compute; split; lia |]).
    destruct Hc.
Defined.




End ParserFacts.

Section PlaceholderFacts.
Import Js App.
Local Open Scope js_scope.





End PlaceholderFacts.

(* ===================================================================== *)
(** * The forms and the events, proved on the component                   *)
(* ===================================================================== *)

Section EventFacts.
Import Js App Ui.
Local Open Scope js_scope.

Variable File : Type.

(** ** Handlers that leave the search boxes alone *)

Lemma executeSearch_settle_params (res : response (list value)) (s : state) :
  searchParams (fst (executeSearch_settle res s)) = searchParams s.
Proof.
  unfold executeSearch_settle, executeSearch_try.
  destruct res as [[| first rest] |]; simpl; try reflexivity.
  destruct (get first "id"); reflexivity.
Qed.

Lemma fetchTelegrams_settle_params (res : response (list value)) (s : state) :
  searchParams (fetchTelegrams_settle res s) = searchParams s.
Proof. destruct res; reflexivity. Qed.

Lemma handleSelectTelegram_settle_params (res : response value) (s : state) :
  searchParams (handleSelectTelegram_settle res s) = searchParams s.
Proof. destruct res; reflexivity. Qed.

Lemma step_keeps_params (r : refs) (u : ui File) (e : event File) :
  params_ok (app u) -> params_ok (app (next (step r u e))).
Proof.
  intros [Hn Hv]. unfold params_ok.
  destruct e as [| val | val | | files | | t | res | res | res | res | res];
    cbn [step next app with_app quiet handleFileChange setFile
         handleUpload_listed].
  - split; assumption.
  - unfold handleSearchNumberChange.
    destruct (digits_only val) eqn:Hd; simpl; [| split; assumption].
    destruct (Nat.leb_spec (String.length val) 8); [| split; assumption].
    destruct (String.length val =? 8); [destruct (versionInputRef r) |];
      simpl; (split; [split; assumption | assumption]).
  - unfold handleSearchVersionChange.
    destruct (digits_only val) eqn:Hd; simpl; [| split; assumption].
    destruct (Nat.leb_spec (String.length val) 2); [| split; assumption].
    destruct (String.length val =? 2);
      simpl; (split; [assumption | split; assumption]).
  - split; split; simpl; auto using Nat.le_0_l.
  - split; assumption.
  - unfold handleUpload_start. destruct (file u); simpl; split; assumption.
  - unfold item_onClick. destruct (get t "id"); simpl; split; assumption.
  - rewrite fetchTelegrams_settle_params. split; assumption.
  - pose proof (executeSearch_settle_params res (app u)) as Hp.
    destruct (executeSearch_settle res (app u)) as [s1 p]. simpl in *.
    rewrite Hp. split; assumption.
  - rewrite handleSelectTelegram_settle_params. split; assumption.
  - destruct res; simpl; split; assumption.
  - destruct res; simpl; split; assumption.
Qed.

Lemma run_keeps (P : ui File -> Prop) (r : refs) :
  (forall u e, P u -> P (next (step r u e))) ->
  forall es u, P u -> P (fst (run r es u)).
Proof.
  intros Hstep. induction es as [| e es IH]; intros u Hu; simpl; [exact Hu |].
  specialize (IH (next (step r u e)) (Hstep u e Hu)).
  destruct (run r es (next (step r u e))). exact IH.
Qed.

Lemma step_keeps_error (r : refs) (u : ui File) (e : event File) :
  known_error (app u) -> known_error (app (next (step r u e))).
Proof.
  unfold known_error. intros H.
  destruct e as [| val | val | | files | | t | res | res | res | res | res];
    cbn [step].
  - exact H.
  - unfold handleSearchNumberChange.
    destruct (negb (digits_only val)); [exact H |].
    destruct (String.length val <=? 8); [| exact H].
    destruct (String.length val =? 8); [destruct (versionInputRef r) |];
      exact H.
  - unfold handleSearchVersionChange.
    destruct (negb (digits_only val)); [exact H |].
    destruct (String.length val <=? 2); [| exact H].
    destruct (String.length val =? 2); [exact I | exact H].
  - exact H.
  - exact H.
  - unfold handleUpload_start. destruct (file u); [exact I | exact H].
  - unfold item_onClick. destruct (get t "id"); [exact I | exact H].
  - destruct res; simpl; [exact H | auto].
  - unfold executeSearch_settle, executeSearch_try.
    destruct res as [[| first rest] |]; simpl; auto.
    destruct (get first "id"); simpl; auto.
  - destruct res; simpl; [exact H | auto 6].
  - destruct res; simpl; [exact H | auto 6].
  - destruct res; simpl; [exact H | auto].
Qed.

(** Every message the handlers set is shown: the banner's test on the
    string never fails. *)
Lemma known_error_is_rendered (s : state) :
  known_error s -> render_error s = error s.
Proof.
  unfold known_error, render_error. destruct (error s) as [msg |]; [| reflexivity].
  simpl. intros [<- | [<- | [<- | [<- | []]]]]; reflexivity.
Qed.

(** X1.  Whatever is typed, clicked or answered, in whatever order, the
    order-number box holds at most 8 ASCII digits and the version box at
    most 2. *)
Theorem search_boxes_hold_digits :
  forall (r : refs) (es : list (event File)),
    params_ok (app (fst (run r es initial))).
Proof.
  intros r es.
  apply (run_keeps (fun u => params_ok (app u)) r).
  - intros u e. apply step_keeps_params.
  - repeat split; simpl; auto using Nat.le_0_l.
Qed.

(** X2.  Whatever happens, [error] is [null] or one of the four messages
    of the handlers, and the banner shows exactly what [error] holds. *)
Theorem error_is_a_handler_message :
  forall (r : refs) (es : list (event File)),
    known_error (app (fst (run r es initial)))
    /\ render_error (app (fst (run r es initial)))
       = error (app (fst (run r es initial))).
Proof.
  intros r es.
  assert (H : known_error (app (fst (run r es (@initial File))))).
  { apply (run_keeps (fun u => known_error (app u)) r).
    - intros u e. apply step_keeps_error.
    - exact I. }
  split; [exact H | apply known_error_is_rendered; exact H].
Qed.

Lemma run_effects_keep (P : ui File -> Prop) (Q : effect File -> Prop)
  (r : refs) :
  (forall u e, P u -> P (next (step r u e))) ->
  (forall u e fx, P u -> In fx (effects (step r u e)) -> Q fx) ->
  forall es u, P u -> forall fx, In fx (snd (run r es u)) -> Q fx.
Proof.
  intros Hstep Hfx. induction es as [| e es IH]; intros u Hu fx; simpl.
  - intros [].
  - specialize (IH (next (step r u e)) (Hstep u e Hu) fx).
    destruct (run r es (next (step r u e))) as [u' fxs]. simpl in *.
    rewrite in_app_iff. intros [Hin | Hin]; [exact (Hfx u e fx Hu Hin) | auto].
Qed.

Lemma step_search_requests (r : refs) (u : ui File) (e : event File)
  (n v : string) :
  params_ok (app u) ->
  In (Get (GetSearch n v)) (effects (step r u e)) ->
  n = fst (searchParams (app u)) /\ digits_up_to 8 n
  /\ digits_only v = true /\ String.length v = 2.
Proof.
  intros [Hn Hv].
  destruct e as [| val | val | | files | | t | res | res | res | res | res];
    cbn [step].
  - simpl. intros [H | []]. discriminate.
  - unfold handleSearchNumberChange.
    destruct (negb (digits_only val)); [intros [] |].
    destruct (String.length val <=? 8); [| intros []].
    destruct (String.length val =? 8); [destruct (versionInputRef r) |];
      simpl; intros H; repeat destruct H as [H | H]; try discriminate;
      destruct H.
  - unfold handleSearchVersionChange.
    destruct (digits_only val) eqn:Hd; simpl; [| intros []].
    destruct (String.length val <=? 2); [| intros []].
    destruct (Nat.eqb_spec (String.length val) 2) as [Hl | _]; simpl;
      [| intros []].
    intros [H | []]. injection H as <- <-. auto.
  - unfold clear_onClick. simpl. destruct (numberInputRef r); simpl;
      intros H; repeat destruct H as [H | H]; try discriminate; destruct H.
  - intros [].
  - unfold handleUpload_start. destruct (file u); simpl;
      intros H; repeat destruct H as [H | H]; try discriminate; destruct H.
  - unfold item_onClick. destruct (get t "id"); simpl;
      intros H; repeat destruct H as [H | H]; try discriminate; destruct H.
  - intros [].
  - unfold executeSearch_settle, executeSearch_try.
    destruct res as [[| first rest] |]; simpl; try (intros []).
    destruct (get first "id"); simpl;
      intros H; repeat destruct H as [H | H]; try discriminate; destruct H.
  - intros [].
  - destruct res; simpl;
      intros H; repeat destruct H as [H | H]; try discriminate; destruct H.
  - simpl. intros H; repeat destruct H as [H | H]; try discriminate; destruct H.
Qed.

(** X3.  Whatever happens, a search is only ever requested with an order
    number of at most 8 ASCII digits and a version of exactly 2 ASCII
    digits. *)
Theorem search_requests_carry_digits :
  forall (r : refs) (es : list (event File)) (n v : string),
    In (Get (GetSearch n v)) (snd (run r es initial)) ->
    digits_up_to 8 n /\ digits_only v = true /\ String.length v = 2.
Proof.
  intros r es n v Hin.
  apply (run_effects_keep (fun u => params_ok (app u))
           (fun fx => forall n v, fx = Get (GetSearch n v) ->
                        digits_up_to 8 n /\ digits_only v = true
                        /\ String.length v = 2)
           r) with (es := es) (u := initial) (fx := Get (GetSearch n v)).
  - intros u e. apply step_keeps_params.
  - intros u e fx Hu Hfx n' v' ->.
    apply (step_search_requests r u e n' v' Hu) in Hfx. tauto.
  - repeat split; simpl; auto using Nat.le_0_l.
  - exact Hin.
  - reflexivity.
Qed.

(** X4.  The search starts as soon as the version box holds two digits,
    with whatever the order-number box holds then, be it fewer than 8
    digits or none: after the two inputs the boxes hold the two values,
    the component is loading, the error is cleared and the one request
    sent is the search for exactly that pair. *)
Theorem short_number_is_searched :
  forall (r : refs) (u : ui File) (n v : string),
    digits_up_to 8 n -> digits_only v = true -> String.length v = 2 ->
    searchParams (app (fst (run r [ChangeNumber n; ChangeVersion v] u)))
    = (n, v)
    /\ loading (app (fst (run r [ChangeNumber n; ChangeVersion v] u))) = true
    /\ error (app (fst (run r [ChangeNumber n; ChangeVersion v] u))) = None
    /\ (forall req,
          In (Get req) (snd (run r [ChangeNumber n; ChangeVersion v] u))
          <-> req = GetSearch n v).
Proof.
  intros r u n v [Hdn Hln] Hdv Hlv.
  cbn [run step]. unfold handleSearchNumberChange.
  rewrite Hdn. cbn [negb].
  destruct (Nat.leb_spec (String.length n) 8) as [_ |]; [| lia].
  assert (Hver : forall u1 : ui File,
             fst (searchParams (app u1)) = n ->
             handleSearchVersionChange v u1
             = mkOutcome
                 (mkUi (file u1)
                    (setError None
                       (setLoading true
                          (setSearchParams (n, v) (app u1)))))
                 [Get (GetSearch n v)] None).
  { intros u1 Hu1. unfold handleSearchVersionChange.
    rewrite Hdv, Hlv, Hu1. reflexivity. }
  destruct (String.length n =? 8); [destruct (versionInputRef r) |];
    cbn [next effects quiet]; rewrite Hver by reflexivity;
    cbn [next effects app fst snd List.app];
    (repeat split; try reflexivity;
     [ intros H; repeat destruct H as [H | H]; try discriminate;
       [injection H as <-; reflexivity | destruct H]
     | intros ->; simpl; auto ]).
Qed.

(** X5.  The clear button does not cancel a search in flight: when the
    search answers after the click, its results replace the list the
    click had reloaded, while the search boxes stay empty. *)
Theorem clear_does_not_cancel_search :
  forall (r : refs) (u : ui File) (listed : response (list value))
         (results : list value),
    let after :=
      fst (run r [ClickClear; ListSettled listed;
                  SearchSettled (Resolved results)] u) in
    telegrams (app after) = results
    /\ searchParams (app after) = ("", "")
    /\ loading (app after) = false.
Proof.
  intros r u listed results. cbn [run step next fst quiet].
  unfold clear_onClick. cbn [next].
  match goal with
  | |- context [executeSearch_settle ?res ?s] =>
      pose proof (executeSearch_settle_params res s) as Hp;
      assert (Ht : telegrams (fst (executeSearch_settle res s)) = results
                   /\ loading (fst (executeSearch_settle res s)) = false);
      [| destruct (executeSearch_settle res s) as [s1 p] ]
  end.
  { unfold executeSearch_settle, executeSearch_try.
    destruct results as [| first rest]; simpl; [split; reflexivity |].
    destruct (get first "id"); split; reflexivity. }
  simpl in *. destruct Ht as [-> ->]. rewrite Hp.
  destruct listed; repeat split; reflexivity.
Qed.

(** X6.  The clear button empties the search boxes and the selection and
    reloads the list, but it leaves the error banner, the loading flag
    and the chosen file as they are; the one request it sends is the
    list request. *)
Theorem clear_keeps_error_and_loading :
  forall (r : refs) (u : ui File) (listed : list value),
    let '(after, fx) := run r [ClickClear; ListSettled (Resolved listed)] u in
    telegrams (app after) = listed
    /\ selectedTelegram (app after) = VNull
    /\ searchParams (app after) = ("", "")
    /\ error (app after) = error (app u)
    /\ loading (app after) = loading (app u)
    /\ file after = file u
    /\ (forall req, In (Get req) fx <-> req = GetTelegrams).
Proof.
  intros r u listed. cbn. repeat split; try reflexivity.
  - destruct (numberInputRef r); simpl;
      intros H; repeat destruct H as [H | H]; try discriminate;
      try (injection H as <-; reflexivity); destruct H.
  - intros ->. left. reflexivity.
Qed.

(** X7.  Submitting the upload form with no file chosen changes nothing
    and sends nothing, and the submit button is disabled in that
    state. *)
Theorem upload_without_file_is_ignored :
  forall (r : refs) (u : ui File),
    file u = None ->
    run r [Submit] u = (u, [PreventDefault])
    /\ submit_disabled (render_controls u) = true.
Proof.
  intros r u Hfile. cbn. unfold handleUpload_start, render_controls.
  rewrite Hfile. split; reflexivity.
Qed.

(** X8.  A rejected upload keeps the chosen file, the list and the
    selection, shows the upload error and ends the loading state; no
    list request is sent and no alert is shown. *)
Theorem failed_upload_keeps_file_and_list :
  forall (r : refs) (u : ui File) (f : File),
    file u = Some f ->
    let '(after, fx) := run r [Submit; PostSettled Rejected] u in
    file after = Some f
    /\ telegrams (app after) = telegrams (app u)
    /\ selectedTelegram (app after) = selectedTelegram (app u)
    /\ error (app after) = Some "アップロードまたは解析に失敗しました。"
    /\ loading (app after) = false
    /\ fx = [PreventDefault; PostUpload f]
    /\ submit_disabled (render_controls after) = false.
Proof.
  intros r u f Hfile. cbn. unfold handleUpload_start, render_controls.
  rewrite Hfile. cbn. rewrite Hfile. repeat split; reflexivity.
Qed.

(** X9.  After an accepted upload the file is forgotten, the loading
    state ends, the success alert is shown and the submit button is
    disabled until a file is chosen again, whether or not the list could
    be reloaded: if it could, the list is the reloaded one; if not, the
    old list stays and the error banner shows the list error next to the
    success alert. *)
Theorem accepted_upload_alerts_success :
  forall (r : refs) (u : ui File) (f : File) (listed : response (list value)),
    file u = Some f ->
    let '(after, fx) :=
      run r [Submit; PostSettled (Resolved tt); UploadListSettled listed] u in
    file after = None
    /\ loading (app after) = false
    /\ fx = [PreventDefault; PostUpload f; Get GetTelegrams;
             Alert "アップロードと解析が完了しました。"]
    /\ submit_disabled (render_controls after) = true
    /\ match listed with
       | Resolved l => telegrams (app after) = l /\ error (app after) = None
       | Rejected =>
           telegrams (app after) = telegrams (app u)
           /\ error (app after) = Some "データの取得に失敗しました。"
       end.
Proof.
  intros r u f listed Hfile. cbn. unfold handleUpload_start.
  rewrite Hfile. cbn. destruct listed; repeat split; reflexivity.
Qed.

End EventFacts.

Section SearchFacts.
Import Js App.
Local Open Scope js_scope.

(** X10.  A search whose request is rejected leaves the list, the
    selection and the search boxes as they were; it shows the search
    error, ends the loading state and requests no detail. *)
Theorem failed_search_keeps_list :
  forall (number version : string) (detail : value -> response value)
         (s : state),
    search_run number version Rejected detail s
    = mkState (telegrams s) (selectedTelegram s) false
        (Some "検索に失敗しました。") (searchParams s)
    /\ snd (executeSearch_settle Rejected
              (fst (executeSearch_start number version s)))
       = Throw AxiosError.
Proof. intros number version detail s. split; reflexivity. Qed.

(** X11.  [executeSearch] does not wait for the detail it asks for: when
    it ends, the loading flag is off in every case, also while the
    detail request of a non-empty result is still pending. *)
Theorem search_stops_loading_before_detail :
  forall (res : response (list value)) (s : state),
    loading (fst (executeSearch_settle res s)) = false
    /\ forall first rest id,
         res = Resolved (first :: rest) ->
         get first "id" = Ok id ->
         snd (executeSearch_settle res s) = Ok (Some (GetDetail id)).
Proof.
  intros res s. unfold executeSearch_settle, executeSearch_try. split.
  - destruct res as [[| first rest] |]; simpl; try reflexivity.
    destruct (get first "id"); reflexivity.
  - intros first rest id -> Hid. rewrite Hid. reflexivity.
Qed.

(** X12.  When the search succeeds but the detail request it triggers is
    rejected, the list shows the new results while the selection is
    still the one from before the search; the detail error is shown and
    the loading state has ended. *)
Theorem failed_detail_keeps_old_selection :
  forall (number version : string) (first : value) (rest : list value)
         (id : value) (detail : value -> response value) (s : state),
    get first "id" = Ok id ->
    detail id = Rejected ->
    search_run number version (Resolved (first :: rest)) detail s
    = mkState (first :: rest) (selectedTelegram s) false
        (Some "詳細データの取得に失敗しました。") (searchParams s).
Proof.
  intros number version first rest id detail s Hid Hrej.
  unfold search_run, executeSearch_start, executeSearch_settle,
    executeSearch_try.
  rewrite Hid. simpl. rewrite Hrej. reflexivity.
Qed.


End SearchFacts.

Section RenderFacts.
Import Js App Ui.
Local Open Scope js_scope.

Lemma defined_or_not (items : list value) :
  Forall (fun it => nullish it = false) items
  \/ Exists (fun it => nullish it = true) items.
Proof.
  induction items as [| it items [IH | IH]].
  - left. constructor.
  - destruct (nullish it) eqn:Hit.
    + right. left. exact Hit.
    + left. constructor; assumption.
  - right. right. exact IH.
Qed.


(** [map] with a callback that succeeds on every defined element. *)
Lemma map_from_total {B} (f : value -> nat -> result B) (g : value -> B)
  (items : list value) :
  (forall it i, nullish it = false -> f it i = Ok (g it)) ->
  Forall (fun it => nullish it = false) items ->
  forall i, Js.map_from i f items = Ok (List.map g items).
Proof.
  intros Hf. induction 1 as [| it items Hit _ IH]; intros i; simpl.
  - reflexivity.
  - rewrite (Hf it i Hit); simpl. rewrite IH. reflexivity.
Qed.

(** [map] with a callback that throws on [null] and [undefined]. *)
Lemma map_from_throws {B} (f : value -> nat -> result B) (items : list value) :
  (forall it i, nullish it = true -> f it i = Throw TypeError) ->
  (forall it i, nullish it = false -> exists y, f it i = Ok y) ->
  Exists (fun it => nullish it = true) items ->
  forall i, Js.map_from i f items = Throw TypeError.
Proof.
  intros Hthrow Hok. induction 1 as [it items Hit | it items _ IH];
    intros i; simpl.
  - rewrite (Hthrow it i Hit). reflexivity.
  - destruct (nullish it) eqn:Hit.
    + rewrite (Hthrow it i Hit). reflexivity.
    + destruct (Hok it i Hit) as (y & ->). simpl. rewrite IH. reflexivity.
Qed.



Lemma or_dash_iff (v : value) :
  Js.or v dash = VStr "-" <-> truthy v = false \/ v = VStr "-".
Proof.
  unfold Js.or, dash. destruct (truthy v) eqn:Hv; split; intros H.
  - right. exact H.
  - destruct H as [H | H]; [discriminate | exact H].
  - left. reflexivity.
  - reflexivity.
Qed.

(** X15.  An optional cell of the detail view reads ["-"] exactly when
    the stored value is falsy or is itself the string ["-"]: an empty
    string, the number 0 and [false] are shown like an absent field. *)
Theorem dash_means_falsy_or_dash :
  forall (toLocaleString_jaJP stringify : value -> string) (t : value)
         (d : detail),
    render_detail toLocaleString_jaJP stringify t = Ok (Detail d) ->
    forall path cell,
      In (path, cell) (optional_cells d) ->
      let stored := opt_path (opt_get t "raw_data") path in
      cell = VStr "-" <-> truthy stored = false \/ stored = VStr "-".
Proof.
  intros toLoc stringify t d. unfold render_detail.
  destruct (truthy t) eqn:Ht; simpl; [| discriminate].
  apply truthy_defined in Ht.
  destruct (prescription_tbody t) as [body |]; simpl; [| discriminate].
  rewrite !(get_defined _ _ Ht); simpl.
  intros H. injection H as <-. intros path cell Hin. simpl in Hin.
  repeat (destruct Hin as [Hin | Hin];
          [injection Hin as <- <-; apply or_dash_iff |]).
  destruct Hin.
Qed.

(** ** The list *)

Lemma render_li_defined (sel t : value) (i : nat) :
  nullish t = false -> render_li sel t i = Ok (shown_li sel t).
Proof.
  intros Ht. unfold render_li, render_item, is_active, shown_li, shown_item,
    shown_active.
  rewrite !(get_defined _ _ Ht); simpl.
  destruct (truthy sel) eqn:Hsel; simpl; [| reflexivity].
  rewrite (get_defined _ _ (truthy_defined _ Hsel)). reflexivity.
Qed.

Lemma render_li_throws (sel t : value) (i : nat) :
  nullish t = true -> render_li sel t i = Throw TypeError.
Proof.
  intros Ht. unfold render_li, render_item.
  rewrite (get_throws _ _ Ht). reflexivity.
Qed.

Lemma all_defined_true (ts : list value) :
  Forall (fun t => nullish t = false) ts ->
  forallb (fun t => negb (nullish t)) ts = true.
Proof.
  intros Hall. apply forallb_forall. intros x Hx.
  rewrite Forall_forall in Hall. rewrite (Hall x Hx). reflexivity.
Qed.

Lemma all_defined_false (ts : list value) :
  Exists (fun t => nullish t = true) ts ->
  forallb (fun t => negb (nullish t)) ts = false.
Proof.
  intros Hex. apply not_true_is_false. intros Hall.
  rewrite forallb_forall in Hall.
  apply Exists_exists in Hex. destruct Hex as (x & Hx & Hn).
  specialize (Hall x Hx). rewrite Hn in Hall. discriminate.
Qed.

(** The list section by the shape of the list. *)
Lemma render_list_cases (s : state) :
  render_list s
  = match telegrams s with
    | [] => Ok NoData
    | ts =>
        if forallb (fun t => negb (nullish t)) ts
        then Ok (Items (List.map (shown_li (selectedTelegram s)) ts))
        else Throw TypeError
    end.
Proof.
  unfold render_list. destruct (telegrams s) as [| t ts]; [reflexivity |].
  cbv zeta. generalize (t :: ts). intros l. unfold Js.map.
  destruct (defined_or_not l) as [Hall | Hex].
  - rewrite (map_from_total _ (shown_li (selectedTelegram s)) _
               (fun it i => render_li_defined _ it i) Hall).
    rewrite (all_defined_true _ Hall). reflexivity.
  - rewrite (map_from_throws _ _ (fun it i => render_li_throws _ it i)
               (fun it i H => ex_intro _ _ (render_li_defined _ it i H)) Hex).
    rewrite (all_defined_false _ Hex). reflexivity.
Qed.

(** X16.  The list section shows [データがありません] for an empty
    list; otherwise one [<li>] per telegram, in the order of the list,
    each with its own id, patient id, order number and version, with
    [名称不明] in place of a missing patient name and ["-"] in place of
    a missing order date; a [null] among the telegrams makes the whole
    list fail with a [TypeError]. *)
Theorem list_shows_every_telegram :
  forall s : state,
    (telegrams s = [] -> render_list s = Ok NoData)
    /\ (telegrams s <> [] ->
        Forall (fun t => nullish t = false) (telegrams s) ->
        render_list s
        = Ok (Items (List.map (shown_li (selectedTelegram s)) (telegrams s))))
    /\ (Exists (fun t => nullish t = true) (telegrams s) ->
        render_list s = Throw TypeError).
Proof.
  intros s. rewrite render_list_cases. split; [| split].
  - intros ->. reflexivity.
  - intros Hne Hall. destruct (telegrams s) as [| t ts]; [congruence |].
    cbv zeta. rewrite (all_defined_true _ Hall). reflexivity.
  - intros Hex. destruct (telegrams s) as [| t ts]; [inversion Hex |].
    cbv zeta. rewrite (all_defined_false _ Hex). reflexivity.
Qed.

(** [===] relates what it relates to one value to each other. *)
Lemma strict_eq_euclidean (a b c : value) :
  strict_eq a b = true -> strict_eq a c = true -> strict_eq b c = true.
Proof.
  destruct a, b; simpl; try discriminate; destruct c; simpl;
    try discriminate; try reflexivity.
  - intros H1 H2. apply Bool.eqb_prop in H1, H2. subst.
    apply Bool.eqb_reflx.
  - intros H1 H2. apply Qeq_bool_iff in H1, H2. apply Qeq_bool_iff.
    rewrite <- H1, <- H2. reflexivity.
  - intros H1 H2. apply String.eqb_eq in H1, H2. subst.
    apply String.eqb_refl.
Qed.

(** X17.  When the ids of the listed telegrams are pairwise different
    under [===], at most one list item is highlighted. *)
Theorem at_most_one_item_is_active :
  forall (s : state) (lis : list li),
    render_list s = Ok (Items lis) ->
    (forall i j ti tj,
        nth_error (telegrams s) i = Some ti ->
        nth_error (telegrams s) j = Some tj ->
        i <> j ->
        strict_eq (opt_get ti "id") (opt_get tj "id") = false) ->
    forall i j li lj,
      nth_error lis i = Some li ->
      nth_error lis j = Some lj ->
      active li = true -> active lj = true ->
      i = j.
Proof.
  intros s lis Hrender Hdistinct i j li lj Hi Hj Hai Haj.
  rewrite render_list_cases in Hrender.
  assert (Hlis : lis = List.map (shown_li (selectedTelegram s)) (telegrams s)).
  { destruct (telegrams s) as [| t ts]; [discriminate |].
    cbv zeta in Hrender. destruct (forallb _ _); [| discriminate].
    injection Hrender as <-. reflexivity. }
  subst lis. rewrite nth_error_map in Hi, Hj.
  destruct (nth_error (telegrams s) i) as [ti |] eqn:Hti; [| discriminate].
  destruct (nth_error (telegrams s) j) as [tj |] eqn:Htj; [| discriminate].
  injection Hi as <-. injection Hj as <-.
  unfold shown_li, shown_active in Hai, Haj. simpl in Hai, Haj.
  apply andb_true_iff in Hai, Haj. destruct Hai as [_ Hai], Haj as [_ Haj].
  destruct (Nat.eq_dec i j) as [Heq | Hne]; [exact Heq |].
  pose proof (strict_eq_euclidean _ _ _ Hai Haj) as Hsame.
  rewrite (Hdistinct i j ti tj Hti Htj Hne) in Hsame. discriminate.
Qed.

(** X18.  After a search that finds nothing the list section shows
    [データがありません] and the detail section the selection prompt,
    whatever was listed and selected before; no error is shown and the
    loading state has ended. *)
Theorem empty_search_shows_no_data_and_prompt :
  forall (toLocaleString_jaJP stringify : value -> string)
         (number version : string) (detail : value -> response value)
         (s : state),
    let s' := search_run number version (Resolved []) detail s in
    render_list s' = Ok NoData
    /\ render_detail toLocaleString_jaJP stringify (selectedTelegram s')
       = Ok SelectPrompt
    /\ render_error s' = None
    /\ loading s' = false.
Proof. intros. repeat split. Qed.

(** ** The first revision of the table *)

Lemma rev1_item_row_defined (item : value) (i : nat) :
  nullish item = false ->
  Rev1.item_row item i
  = Ok (mkRow i (opt_get item "name") (opt_get item "suuryou")
          (opt_get item "sentaku_tani_name") (opt_get item "code")).
Proof.
  intros H. unfold Rev1.item_row. rewrite !(get_defined _ _ H). reflexivity.
Qed.

Lemma rev1_rows (items : list value) :
  Forall (fun it => nullish it = false) items ->
  forall i, exists rows,
    Js.map_from i Rev1.item_row items = Ok rows
    /\ List.map cells rows = List.map Rev1.item_cells items
    /\ List.map key rows = seq i (List.length items).
Proof.
  induction 1 as [| it items Hit _ IH]; intros i; simpl.
  - exists []. repeat split.
  - rewrite (rev1_item_row_defined _ _ Hit); simpl.
    destruct (IH (S i)) as (rows & -> & Hc & Hk); simpl.
    eexists; split; [reflexivity |]. simpl.
    rewrite Hc, Hk. split; reflexivity.
Qed.

(** X19.  The first revision of the table shows every element of
    [raw_data.content.item_info.item_group], whatever its attribute: one
    row per item line, in order, keyed by its index, with the cells
    [name], [suuryou], [sentaku_tani_name] and [code]; the fallback row
    appears only when the path is [undefined] or [null]. *)
Theorem first_revision_lists_every_item :
  forall (t group : value),
    Rev1.item_group t = Ok group ->
    (Rev1.prescription_tbody t = Ok NoItems <-> nullish group = true)
    /\ (forall items,
          group = VArr items ->
          Forall (fun it => nullish it = false) items ->
          exists rows,
            Rev1.prescription_tbody t = Ok (Rows rows)
            /\ List.map cells rows = List.map Rev1.item_cells items
            /\ List.map key rows = seq 0 (List.length items)).
Proof.
  intros t group Hgroup.
  unfold Rev1.prescription_tbody, Rev1.prescription_rows.
  rewrite Hgroup; simpl. split.
  - destruct group; simpl; split; intros H; try reflexivity;
      try discriminate.
    unfold Js.map in H. destruct (Js.map_from 0 Rev1.item_row elems);
      discriminate.
  - intros items -> Hall. simpl.
    destruct (rev1_rows items Hall 0) as (rows & Hrows & Hc & Hk).
    exists rows. unfold Js.map. rewrite Hrows. repeat split; assumption.
Qed.

End RenderFacts.

(* ===================================================================== *)
(** * Runs of the component on sample data                                *)
(* ===================================================================== *)

Section SampleRuns.
Import Js App Ui.
Local Open Scope js_scope.

Lemma search_requests_carry_digits_witness :
  digits_up_to 8 "" /\ digits_only "01" = true /\ String.length "01" = 2.
Proof.
  apply (search_requests_carry_digits string (mkRefs true true)
           [ChangeVersion "01"] "" "01").
  simpl. left. reflexivity.
Defined.

Lemma short_number_is_searched_witness :
  In (Get (GetSearch "123" "01"))
    (snd (run (mkRefs true true) [ChangeNumber "123"; ChangeVersion "01"]
            (@initial string))).
Proof.
  destruct (short_number_is_searched string (mkRefs true true) initial
              "123" "01") as (_ & _ & _ & H).
  - split; [reflexivity | simpl; lia].
  - reflexivity.
  - reflexivity.
  - apply H. reflexivity.
Defined.

Lemma upload_without_file_witness :
  run (mkRefs true true) [Submit] (@initial string)
  = (initial, [PreventDefault]).
Proof.
  apply (upload_without_file_is_ignored string (mkRefs true true) initial).
  reflexivity.
Defined.

Lemma failed_upload_witness :
  file (fst (run (mkRefs true true) [Submit; PostSettled Rejected]
               (mkUi (Some "order.dat") (app (@initial string)))))
  = Some "order.dat".
Proof.
  pose proof (failed_upload_keeps_file_and_list string (mkRefs true true)
                (mkUi (Some "order.dat") (app (@initial string))) "order.dat" eq_refl)
    as H.
  destruct (run _ _ _) as [after fx]. apply H.
Defined.

Lemma accepted_upload_witness :
  file (fst (run (mkRefs true true)
               [Submit; PostSettled (Resolved tt); UploadListSettled Rejected]
               (mkUi (Some "order.dat") (app (@initial string)))))
  = None.
Proof.
  pose proof (accepted_upload_alerts_success string (mkRefs true true)
                (mkUi (Some "order.dat") (app (@initial string))) "order.dat" Rejected
                eq_refl) as H.
  destruct (run _ _ _) as [after fx]. apply H.
Defined.

Lemma search_stops_loading_witness :
  snd (executeSearch_settle (Resolved [Sample.json_telegram VNull])
         Sample.initial_state)
  = Ok (Some (GetDetail (VNum (inject_Z 7)))).
Proof.
  apply (proj2 (search_stops_loading_before_detail
                  (Resolved [Sample.json_telegram VNull])
                  Sample.initial_state)
           (Sample.json_telegram VNull) []); reflexivity.
Defined.

Lemma failed_detail_witness :
  selectedTelegram
    (search_run "12345678" "01"
       (Resolved [Sample.json_telegram (VArr Sample.json_items)])
       (fun _ => Rejected) Sample.initial_state)
  = Sample.json_telegram VNull.
Proof.
  rewrite (failed_detail_keeps_old_selection "12345678" "01"
             (Sample.json_telegram (VArr Sample.json_items)) []
             (VNum (inject_Z 7)) (fun _ => Rejected) Sample.initial_state
             eq_refl eq_refl).
  reflexivity.
Defined.



Lemma dash_means_falsy_witness :
  exists d,
    render_detail (fun _ => "") (fun _ => "") (Sample.json_telegram VNull)
    = Ok (Detail d)
    /\ d_birthdate d = VStr "-".
Proof.
  eexists. split; [reflexivity |].
  apply (dash_means_falsy_or_dash (fun _ => "") (fun _ => "")
           (Sample.json_telegram VNull) _ eq_refl
           ["content"; "patient_info"; "birthdate"]).
  - left. reflexivity.
  - left. reflexivity.
Defined.

Lemma list_shows_every_telegram_witness :
  render_list
    (mkState [Sample.json_telegram VNull] VNull false None ("", ""))
  = Ok (Items [shown_li VNull (Sample.json_telegram VNull)]).
Proof.
  apply (proj1 (proj2 (list_shows_every_telegram
                         (mkState [Sample.json_telegram VNull] VNull false
                            None ("", ""))))).
  - discriminate.
  - repeat constructor.
Defined.

Lemma at_most_one_item_is_active_witness : 0 = 0.
Proof.
  apply (at_most_one_item_is_active
           (mkState [VObj [("id", VNum (inject_Z 1))];
                     VObj [("id", VNum (inject_Z 2))]]
              (VObj [("id", VNum (inject_Z 1))]) false None ("", ""))
           [shown_li (VObj [("id", VNum (inject_Z 1))])
              (VObj [("id", VNum (inject_Z 1))]);
            shown_li (VObj [("id", VNum (inject_Z 1))])
              (VObj [("id", VNum (inject_Z 2))])]
           eq_refl)
    with (li := shown_li (VObj [("id", VNum (inject_Z 1))])
                  (VObj [("id", VNum (inject_Z 1))]))
         (lj := shown_li (VObj [("id", VNum (inject_Z 1))])
                  (VObj [("id", VNum (inject_Z 1))]));
    try reflexivity.
  intros [| [| i]] [| [| j]] ti tj Hi Hj Hne; simpl in Hi, Hj;
    try congruence;
    try (injection Hi as <-; injection Hj as <-; reflexivity);
    try (destruct i; discriminate); try (destruct j; discriminate).
Defined.

Lemma first_revision_witness :
  exists rows,
    Rev1.prescription_tbody
      (VObj [("raw_data",
              VObj [("content",
                     VObj [("item_info",
                            VObj [("item_group",
                                   VArr [Sample.json_item "ZZ9" "comment"])])])])])
    = Ok (Rows rows)
    /\ List.length rows = 1.
Proof.
  destruct (proj2 (first_revision_lists_every_item
                     (VObj [("raw_data",
                             VObj [("content",
                                    VObj [("item_info",
                                           VObj [("item_group",
                                                  VArr [Sample.json_item "ZZ9" "comment"])])])])])
                     _ eq_refl)
              [Sample.json_item "ZZ9" "comment"] eq_refl)
    as (rows & Hrows & Hc & _).
  - repeat constructor.
  - exists rows. split; [exact Hrows |].
    apply (f_equal (@List.length _)) in Hc. rewrite !length_map in Hc.
    exact Hc.
Defined.

End SampleRuns.

Section SelectionFacts.
Import Js App Ui.
Local Open Scope js_scope.

Variable File : Type.

Lemma run_app (r : refs) (es1 es2 : list (event File)) (u : ui File) :
  fst (run r (es1 ++ es2) u) = fst (run r es2 (fst (run r es1 u))).
Proof.
  revert u. induction es1 as [| e es1 IH]; intros u; simpl; [reflexivity |].
  specialize (IH (next (step r u e))).
  destruct (run r (es1 ++ es2) (next (step r u e))) as [u1 fx1].
  destruct (run r es1 (next (step r u e))) as [u2 fx2].
  simpl in *. exact IH.
Qed.

(** X20.  Detail responses are applied as they arrive, with no check of
    which click they answer: after any history, the selection is the
    detail that arrived last, the loading state has ended, and the
    list, the error and the search boxes are as they were just before
    it arrived. *)
Theorem last_detail_to_arrive_is_selected :
  forall (r : refs) (es : list (event File)) (u : ui File) (d : value),
    let before := app (fst (run r es u)) in
    let after := app (fst (run r (es ++ [DetailSettled (Resolved d)]) u)) in
    selectedTelegram after = d
    /\ loading after = false
    /\ telegrams after = telegrams before
    /\ error after = error before
    /\ searchParams after = searchParams before.
Proof.
  intros r es u d. cbv zeta. rewrite run_app. repeat split.
Qed.

(** X21.  Clicking a list item requests the detail of that item's [id],
    clears the error and, once the detail has arrived, shows it; the
    item highlighted afterwards is any item whose [id] equals the [id]
    in the detail that arrived, not the item that was clicked as
    such. *)
Theorem clicked_item_is_requested_and_shown :
  forall (r : refs) (u : ui File) (t d : value),
    nullish t = false ->
    truthy d = true ->
    let '(after, fx) := run r [ClickItem t; DetailSettled (Resolved d)] u in
    fx = [Get (GetDetail (opt_get t "id"))]
    /\ selectedTelegram (app after) = d
    /\ error (app after) = None
    /\ loading (app after) = false
    /\ telegrams (app after) = telegrams (app u)
    /\ forall t' i,
         nullish t' = false ->
         render_li (selectedTelegram (app after)) t' i
         = Ok (mkLi (shown_item t')
                 (strict_eq (opt_get d "id") (opt_get t' "id"))).
Proof.
  intros r u t d Ht Hd. cbn [run step next effects]. unfold item_onClick.
  rewrite (get_defined _ _ Ht). cbn.
  repeat split.
  intros t' i Ht'. rewrite (render_li_defined _ _ _ Ht').
  unfold shown_li, shown_active. rewrite Hd. reflexivity.
Qed.

(** X22.  The loading flag is shared: when a list item is clicked while
    an upload is in flight, the arrival of the detail ends the loading
    state, so the submit button is enabled again with the file still
    chosen although the upload has not been answered. *)
Theorem detail_arrival_reenables_submit_during_upload :
  forall (r : refs) (u : ui File) (f : File) (t : value)
         (res : response value),
    file u = Some f ->
    nullish t = false ->
    let '(after, fx) := run r [Submit; ClickItem t; DetailSettled res] u in
    loading (app after) = false
    /\ file after = Some f
    /\ submit_disabled (render_controls after) = false
    /\ fx = [PreventDefault; PostUpload f; Get (GetDetail (opt_get t "id"))].
Proof.
  intros r u f t res Hfile Ht. cbn [run step next effects].
  unfold handleUpload_start. rewrite Hfile. cbn [next effects].
  unfold item_onClick. rewrite (get_defined _ _ Ht). cbn.
  unfold render_controls. destruct res; cbn; rewrite Hfile;
    repeat split; reflexivity.
Qed.

(** X23.  When the first list request after mounting is rejected, the
    list section shows [データがありません], the detail section the
    selection prompt and the banner the list error; when it is answered,
    the list is the answer and no error is shown. *)
Theorem initial_load_outcome :
  forall (r : refs) (toLocaleString_jaJP stringify : value -> string)
         (res : response (list value)),
    let '(after, fx) := run r [Mount; ListSettled res] (@initial File) in
    fx = [Get GetTelegrams]
    /\ render_detail toLocaleString_jaJP stringify
         (selectedTelegram (app after)) = Ok SelectPrompt
    /\ loading (app after) = false
    /\ match res with
       | Resolved l =>
           telegrams (app after) = l /\ render_error (app after) = None
       | Rejected =>
           render_list (app after) = Ok NoData
           /\ render_error (app after) = Some "データの取得に失敗しました。"
       end.
Proof.
  intros r toLoc stringify res. destruct res; cbn; repeat split.
Qed.

End SelectionFacts.

Section SelectionRuns.
Import Js App Ui.
Local Open Scope js_scope.

Lemma clicked_item_witness :
  selectedTelegram
    (app (fst (run (mkRefs true true)
                 [ClickItem (Sample.json_telegram VNull);
                  DetailSettled
                    (Resolved (Sample.json_telegram (VArr Sample.json_items)))]
                 (@initial string))))
  = Sample.json_telegram (VArr Sample.json_items).
Proof.
  pose proof (clicked_item_is_requested_and_shown string (mkRefs true true)
                initial (Sample.json_telegram VNull)
                (Sample.json_telegram (VArr Sample.json_items))
                eq_refl eq_refl) as H.
  destruct (run _ _ _) as [after fx]. apply H.
Defined.

Lemma detail_arrival_reenables_submit_witness :
  submit_disabled
    (render_controls
       (fst (run (mkRefs true true)
               [Submit; ClickItem (Sample.json_telegram VNull);
                DetailSettled Rejected]
               (mkUi (Some "order.dat") (app (@initial string))))))
  = false.
Proof.
  pose proof (detail_arrival_reenables_submit_during_upload string
                (mkRefs true true)
                (mkUi (Some "order.dat") (app (@initial string)))
                "order.dat" (Sample.json_telegram VNull) Rejected
                eq_refl eq_refl) as H.
  destruct (run _ _ _) as [after fx]. apply H.
Defined.

End SelectionRuns.
